(** * Line-of-sight intersection with a spheroid: [pymap3d.los.lookAtSpheroid]

    A shallow embedding of [src/pymap3d/los.py] and the properties its
    specification states about it.

    Numbers.  A Python float is modelled as an exact real number or the
    not-a-number value: arithmetic is exact (no rounding, no overflow, no
    signed zero), [nan] is absorbing, every comparison with [nan] is false.
    The model has no infinities: where numpy's array arithmetic would divide
    by zero, the model's quotient is [nan].

    Values.  A Python value is a float ([Scalar]) or a one-dimensional numpy
    array ([Array]); numpy's broadcasting rule for these shapes is written
    out in [lift2].  The scalar that numpy's [squeeze()[()]] returns is
    identified with a Python float.

    Runtime.  The module imports [pi, nan, sqrt, atleast_1d] from numpy and
    falls back to [math] when numpy is missing; [runtime] records which of
    the two happened, and raised exceptions are results of type [result].

    Collaborators.  [aer2enu], [enu2uvw], [geodetic2ecef], [ecef2geodetic]
    and the default [Ellipsoid()] live in modules that are not part of the
    verified file; they are parameters of the development. *)

From Stdlib Require Import Reals Lra Lia Psatz List Bool Arith.
Import ListNotations.

Set Implicit Arguments.

(** ** Python floats, exactly *)

Inductive pyfloat : Type :=
| nan
| fin (r : R).

Module Float.

Definition lift2 (f : R -> R -> R) (x y : pyfloat) : pyfloat :=
  match x, y with
  | fin a, fin b => fin (f a b)
  | _, _ => nan
  end.

Definition add : pyfloat -> pyfloat -> pyfloat := lift2 Rplus.
Definition sub : pyfloat -> pyfloat -> pyfloat := lift2 Rminus.
Definition mul : pyfloat -> pyfloat -> pyfloat := lift2 Rmult.

Definition neg (x : pyfloat) : pyfloat :=
  match x with
  | fin a => fin (- a)
  | nan => nan
  end.

(** [x == 0.0] *)
Definition is_zero (x : pyfloat) : bool :=
  match x with
  | fin a => if Req_dec_T a 0 then true else false
  | nan => false
  end.

(** Array division: no exception; a zero divisor gives [nan] here. *)
Definition div (x y : pyfloat) : pyfloat :=
  match x, y with
  | fin a, fin b => if Req_dec_T b 0 then nan else fin (a / b)
  | _, _ => nan
  end.

(** [numpy.sqrt] on one element: [nan] for a negative argument. *)
Definition sqrt (x : pyfloat) : pyfloat :=
  match x with
  | fin a => if Rlt_dec a 0 then nan else fin (sqrt a)
  | nan => nan
  end.

(** [x < y]; false as soon as one side is [nan]. *)
Definition ltb (x y : pyfloat) : bool :=
  match x, y with
  | fin a, fin b => if Rlt_dec a b then true else false
  | _, _ => false
  end.

Definition is_nan (x : pyfloat) : bool :=
  match x with
  | nan => true
  | fin _ => false
  end.

(** [x] is a number and is not below zero. *)
Definition nonneg (x : pyfloat) : Prop :=
  match x with
  | nan => False
  | fin a => (0 <= a)%R
  end.

(** Both are numbers and [x <= y]. *)
Definition le (x y : pyfloat) : Prop :=
  match x, y with
  | fin a, fin b => (a <= b)%R
  | _, _ => False
  end.

End Float.

(** ** Exceptions and results *)

Inductive exn : Type :=
| ValueError
| TypeError
| NameError
| AttributeError
| ZeroDivisionError
| IndexError
| UnboundLocalError.

Inductive result (A : Type) : Type :=
| Ok (a : A)
| Raise (e : exn).

Arguments Ok {A} a.
Arguments Raise {A} e.

Definition bind {A B : Type} (m : result A) (k : A -> result B) : result B :=
  match m with
  | Ok a => k a
  | Raise e => Raise e
  end.

Declare Scope py_scope.
Delimit Scope py_scope with py.

Notation "x <- m ;; k" := (bind m (fun x => k))
  (at level 61, m at next level, right associativity) : py_scope.
Notation "' pat <- m ;; k" := (bind m (fun x => match x with pat => k end))
  (at level 61, pat pattern, m at next level, right associativity) : py_scope.

(** ** Scalars and one-dimensional arrays *)

(** [Scalar] is a Python scalar (a float, or the [bool] a comparison of
    floats gives); [Array] is a numpy array of shape [(length xs,)]. *)
Inductive nd (A : Type) : Type :=
| Scalar (x : A)
| Array (xs : list A).

Arguments Scalar {A} x.
Arguments Array {A} xs.

Definition pyval : Type := nd pyfloat.
Definition pybool : Type := nd bool.

(** The outcome of evaluating a Python expression. *)
Definition py : Type := result pyval.

(** [None] is "no shape" (a Python scalar), [Some n] is shape [(n,)]. *)
Definition shape_of {A : Type} (v : nd A) : option nat :=
  match v with
  | Scalar _ => None
  | Array xs => Some (length xs)
  end.

(** Number of elements. *)
Definition size {A : Type} (v : nd A) : nat :=
  match v with
  | Scalar _ => 1
  | Array xs => length xs
  end.

(** Element [i] of [v] once broadcast: a scalar and a one-element array
    repeat their only element. *)
Definition item {A : Type} (d : A) (v : nd A) (i : nat) : A :=
  match v with
  | Scalar x => x
  | Array [x] => x
  | Array xs => nth i xs d
  end.

Definition nd_map {A B : Type} (f : A -> B) (v : nd A) : nd B :=
  match v with
  | Scalar x => Scalar (f x)
  | Array xs => Array (map f xs)
  end.

Definition zip_with {A B C : Type} (f : A -> B -> C) (xs : list A) (ys : list B) : list C :=
  map (fun p => f (fst p) (snd p)) (combine xs ys).

(** An elementwise binary operation under numpy's broadcasting rule: equal
    lengths pair up, a length-one array stretches, anything else is "operands
    could not be broadcast together". *)
Definition lift2 {A B C : Type} (f : A -> B -> C) (v : nd A) (w : nd B) : result (nd C) :=
  match v, w with
  | Scalar x, Scalar y => Ok (Scalar (f x y))
  | Scalar x, Array ys => Ok (Array (map (f x) ys))
  | Array xs, Scalar y => Ok (Array (map (fun x => f x y) xs))
  | Array xs, Array ys =>
      if length xs =? length ys then Ok (Array (zip_with f xs ys))
      else match xs, ys with
           | [x], _ => Ok (Array (map (f x) ys))
           | _, [y] => Ok (Array (map (fun x => f x y) xs))
           | _, _ => Raise ValueError
           end
  end.

(** [bool(m)], as [if m:] computes it: a numpy array of two or more
    elements has no truth value; an empty one counts as false. *)
Definition truth (m : pybool) : result bool :=
  match m with
  | Scalar b => Ok b
  | Array [] => Ok false
  | Array [b] => Ok b
  | Array (_ :: _ :: _) => Raise ValueError
  end.

(** [v < w] *)
Definition lt (v w : pyval) : result pybool := lift2 Float.ltb v w.

(** [d[m] = x] with a boolean mask [m]: a float supports no item
    assignment; the mask of an array has the array's shape. *)
Definition setitem (d : pyval) (m : pybool) (x : pyfloat) : py :=
  match d, m with
  | Scalar _, _ => Raise TypeError
  | Array ds, Scalar b => Ok (Array (if b then map (fun _ => x) ds else ds))
  | Array ds, Array bs =>
      if length ds =? length bs
      then Ok (Array (zip_with (fun d b => if b : bool then x else d) ds bs))
      else Raise IndexError
  end.

(** [v.squeeze()[()]]: a float has no such attribute; a one-element array
    becomes a scalar, any other array is returned as it is. *)
Definition squeeze (v : pyval) : py :=
  match v with
  | Scalar _ => Raise AttributeError
  | Array [x] => Ok (Scalar x)
  | Array xs => Ok (Array xs)
  end.

(** [x / y]: Python floats raise on a zero divisor, arrays do not. *)
Definition truediv (v w : pyval) : py :=
  match v, w with
  | Scalar x, Scalar y =>
      if Float.is_zero y then Raise ZeroDivisionError else Ok (Scalar (Float.div x y))
  | _, _ => lift2 Float.div v w
  end.

(** ** The two runtimes *)

Inductive runtime : Type :=
| WithNumpy   (* [from numpy import pi, nan, sqrt, atleast_1d] succeeded *)
| MathOnly.   (* [ImportError]: [from math import pi, nan, sqrt] *)

Module np.

(** [numpy.sqrt]: elementwise, never raises. *)
Definition sqrt (v : pyval) : pyval := nd_map Float.sqrt v.

(** [numpy.atleast_1d]: a scalar becomes a one-element array. *)
Definition atleast_1d (v : pyval) : pyval :=
  match v with
  | Scalar x => Array [x]
  | Array xs => Array xs
  end.

End np.

Module math.

(** [math.sqrt]: "math domain error" below zero.  Arrays do not exist
    without numpy; the [Array] case is there for totality. *)
Definition sqrt (v : pyval) : py :=
  match v with
  | Scalar (fin a) => if Rlt_dec a 0 then Raise ValueError else Ok (Scalar (fin (sqrt a)))
  | Scalar nan => Ok (Scalar nan)
  | Array _ => Raise TypeError
  end.

End math.

Definition pi : pyval := Scalar (fin PI).

Definition sqrt (rt : runtime) (v : pyval) : py :=
  match rt with
  | WithNumpy => Ok (np.sqrt v)
  | MathOnly => math.sqrt v
  end.

(** Without numpy the name [atleast_1d] is not bound. *)
Definition atleast_1d (rt : runtime) (v : pyval) : py :=
  match rt with
  | WithNumpy => Ok (np.atleast_1d v)
  | MathOnly => Raise NameError
  end.

(** ** Arithmetic that works on floats and on arrays alike

    The source writes each formula once and Python dispatches [+], [-], [*],
    [/] and unary minus on the operands.  [Arith] is that interface; it has
    an instance for the reals (the mathematics of a formula), for floats (one
    element) and for the outcome of a Python expression (operands evaluated
    left to right, then the broadcast operation). *)

Class Arith (T : Type) : Type := {
  padd : T -> T -> T;
  psub : T -> T -> T;
  pmul : T -> T -> T;
  pdiv : T -> T -> T;
  pneg : T -> T;
  plit : R -> T
}.

Declare Scope expr_scope.
Delimit Scope expr_scope with expr.

Notation "x + y" := (padd x y) : expr_scope.
Notation "x - y" := (psub x y) : expr_scope.
Notation "x * y" := (pmul x y) : expr_scope.
Notation "x / y" := (pdiv x y) : expr_scope.
Notation "- x" := (pneg x) : expr_scope.
Notation "x ** 2" := (pmul x x) (at level 1, format "x  **  2") : expr_scope.
Notation "2" := (plit 2%R) : expr_scope.

#[export] Instance R_Arith : Arith R := {|
  padd := Rplus;
  psub := Rminus;
  pmul := Rmult;
  pdiv := Rdiv;
  pneg := Ropp;
  plit := fun r => r
|}.

#[export] Instance float_Arith : Arith pyfloat := {|
  padd := Float.add;
  psub := Float.sub;
  pmul := Float.mul;
  pdiv := Float.div;
  pneg := Float.neg;
  plit := fin
|}.

Definition ap1 (f : pyval -> py) (x : py) : py := bind x f.

Definition ap2 (f : pyval -> pyval -> py) (x y : py) : py :=
  bind x (fun a => bind y (fun b => f a b)).

#[export] Instance py_Arith : Arith py := {|
  padd := ap2 (lift2 Float.add);
  psub := ap2 (lift2 Float.sub);
  pmul := ap2 (lift2 Float.mul);
  pdiv := ap2 truediv;
  pneg := ap1 (fun a => Ok (nd_map Float.neg a));
  plit := fun r => Ok (Scalar (fin r))
|}.

Section Formulas.

Context {T : Type} `{Arith T}.
Local Open Scope expr_scope.

(** Line 89. *)
Definition value (a b c u v w x y z : T) : T :=
  - (a ** 2) * b ** 2 * w * z - a ** 2 * c ** 2 * v * y - b ** 2 * c ** 2 * u * x.

(** Lines 90-103. *)
Definition radical (a b c u v w x y z : T) : T :=
  a ** 2 * b ** 2 * w ** 2
  + a ** 2 * c ** 2 * v ** 2
  - a ** 2 * v ** 2 * z ** 2
  + 2 * a ** 2 * v * w * y * z
  - a ** 2 * w ** 2 * y ** 2
  + b ** 2 * c ** 2 * u ** 2
  - b ** 2 * u ** 2 * z ** 2
  + 2 * b ** 2 * u * w * x * z
  - b ** 2 * w ** 2 * x ** 2
  - c ** 2 * u ** 2 * y ** 2
  + 2 * c ** 2 * u * v * x * y
  - c ** 2 * v ** 2 * x ** 2.

(** Line 105. *)
Definition magnitude (a b c u v w : T) : T :=
  a ** 2 * b ** 2 * w ** 2 + a ** 2 * c ** 2 * v ** 2 + b ** 2 * c ** 2 * u ** 2.

(** Line 109, with the square root that is in scope passed in. *)
Definition near_root (sqrt : T -> T) (a b c value radical magnitude : T) : T :=
  (value - a * b * c * sqrt radical) / magnitude.

(** The other root of the same quadratic, as the specification writes it
    (the source never computes it). *)
Definition far_root (sqrt : T -> T) (a b c value radical magnitude : T) : T :=
  (value + a * b * c * sqrt radical) / magnitude.

(** Line 121, one coordinate of the point at distance [d] along the ray. *)
Definition along (x d u : T) : T := x + d * u.

End Formulas.

(** ** The ellipsoid *)

Record Ellipsoid : Type := {
  semimajor_axis : pyfloat;
  semiminor_axis : pyfloat
}.

(** ** [lookAtSpheroid] *)

Local Open Scope py_scope.

Definition py3 : Type := result (pyval * pyval * pyval).

(** What one collaborator call looks like from here: a function of Python
    values and the [deg] flag that returns three values or raises. *)

Section LookAtSpheroid.

(** [Ellipsoid()] *)
Variable Ellipsoid_default : Ellipsoid.
(** [aer2enu(az, el, srange, deg)] *)
Variable aer2enu : pyval -> pyval -> pyval -> bool -> py3.
(** [enu2uvw(east, north, up, lat0, lon0, deg)] *)
Variable enu2uvw : pyval -> pyval -> pyval -> pyval -> pyval -> bool -> py3.
(** [geodetic2ecef(lat, lon, alt, deg)], on the default ellipsoid *)
Variable geodetic2ecef : pyval -> pyval -> pyval -> bool -> py3.
(** [ecef2geodetic(x, y, z, deg)], on the default ellipsoid *)
Variable ecef2geodetic : pyval -> pyval -> pyval -> bool -> py3.

(** Line 66: the test of [if h0 < 0]. *)
Definition altitude_is_negative (h0 : pyval) : result bool :=
  m <- lt h0 (Scalar (fin 0)) ;; truth m.

(** Lines 72-77.  Each assignment that succeeds before a [NameError]
    stays. *)
Definition try_atleast_1d (rt : runtime) (lat0 lon0 tilt : pyval) : py3 :=
  match atleast_1d rt lat0 with
  | Raise NameError => Ok (lat0, lon0, tilt)
  | Raise e => Raise e
  | Ok lat0 =>
      match atleast_1d rt lon0 with
      | Raise NameError => Ok (lat0, lon0, tilt)
      | Raise e => Raise e
      | Ok lon0 =>
          match atleast_1d rt tilt with
          | Raise NameError => Ok (lat0, lon0, tilt)
          | Raise e => Raise e
          | Ok tilt => Ok (lat0, lon0, tilt)
          end
      end
  end.

(** Line 83. *)
Definition elevation (tilt : pyval) (deg : bool) : py :=
  if deg then (Ok tilt - plit 90)%expr else (Ok tilt - Ok pi / 2)%expr.

(** Lines 109-111, the body of the [try].  The second component is the
    variable [d] when the body ends or raises: unbound ([None]) until line
    109 has assigned it. *)
Definition try_body (rt : runtime) (a b c value radical magnitude : pyval)
  : result unit * option pyval :=
  match near_root (ap1 (sqrt rt)) (Ok a) (Ok b) (Ok c) (Ok value) (Ok radical) (Ok magnitude) with
  | Raise e => (Raise e, None)
  | Ok d =>
      match (m <- lt radical (Scalar (fin 0)) ;; setitem d m nan) with
      | Raise e => (Raise e, Some d)
      | Ok d =>
          match (m <- lt d (Scalar (fin 0)) ;; setitem d m nan) with
          | Raise e => (Raise e, Some d)
          | Ok d => (Ok tt, Some d)
          end
      end
  end.

(** Lines 113-116, the handler of [ValueError]. *)
Definition except_ValueError (radical : pyval) (d : option pyval)
  : result unit * option pyval :=
  match (m <- lt radical (Scalar (fin 0)) ;; truth m) with
  | Raise e => (Raise e, d)
  | Ok neg_radical =>
      let d := if neg_radical then Some (Scalar nan) else d in
      match d with
      | None => (Raise UnboundLocalError, d)
      | Some dv =>
          match (m <- lt dv (Scalar (fin 0)) ;; truth m) with
          | Raise e => (Raise e, d)
          | Ok neg_d => (Ok tt, if neg_d then Some (Scalar nan) else d)
          end
      end
  end.

(** Lines 108-118: the [try] statement, then the first use of [d]. *)
Definition slant_range (rt : runtime) (a b c value radical magnitude : pyval) : py :=
  let '(r, d) := try_body rt a b c value radical magnitude in
  let '(r, d) :=
    match r with
    | Raise ValueError => except_ValueError radical d
    | Raise TypeError => (Ok tt, d)
    | _ => (r, d)
    end in
  match r, d with
  | Raise e, _ => Raise e
  | Ok _, Some d => Ok d
  | Ok _, None => Raise UnboundLocalError
  end.

(** Lines 123-126. *)
Definition squeeze_all (lat lon d : pyval) : py3 :=
  match (lat' <- squeeze lat ;; lon' <- squeeze lon ;; d' <- squeeze d ;;
         Ok (lat', lon', d')) with
  | Raise AttributeError => Ok (lat, lon, d)
  | r => r
  end.

Definition lookAtSpheroid (rt : runtime) (lat0 lon0 h0 az tilt : pyval)
    (ell : option Ellipsoid) (deg : bool) : py3 :=
  neg_h0 <- altitude_is_negative h0 ;;
  if neg_h0 : bool then Raise ValueError else
  let ell := match ell with None => Ellipsoid_default | Some e => e end in
  '(lat0, lon0, tilt) <- try_atleast_1d rt lat0 lon0 tilt ;;
  let a := Scalar (semimajor_axis ell) in
  let b := Scalar (semimajor_axis ell) in
  let c := Scalar (semiminor_axis ell) in
  el <- elevation tilt deg ;;
  '(e, n, u) <- aer2enu az el (Scalar (fin 1)) deg ;;
  '(u, v, w) <- enu2uvw e n u lat0 lon0 deg ;;
  '(x, y, z) <- geodetic2ecef lat0 lon0 h0 deg ;;
  value <- value (Ok a) (Ok b) (Ok c) (Ok u) (Ok v) (Ok w) (Ok x) (Ok y) (Ok z) ;;
  radical <- radical (Ok a) (Ok b) (Ok c) (Ok u) (Ok v) (Ok w) (Ok x) (Ok y) (Ok z) ;;
  magnitude <- magnitude (Ok a) (Ok b) (Ok c) (Ok u) (Ok v) (Ok w) ;;
  d <- slant_range rt a b c value radical magnitude ;;
  px <- along (Ok x) (Ok d) (Ok u) ;;
  py <- along (Ok y) (Ok d) (Ok v) ;;
  pz <- along (Ok z) (Ok d) (Ok w) ;;
  '(lat, lon, _) <- ecef2geodetic px py pz deg ;;
  squeeze_all lat lon d.

End LookAtSpheroid.

(** ** Collaborators that work element by element

    The conversions are written with numpy's elementwise functions: element
    [i] of each output is a function of element [i] of each (broadcast)
    input.  [elementwise3] and [elementwise5] build such a collaborator from
    what it computes on one element. *)

Definition triple : Type := (pyfloat * pyfloat * pyfloat)%type.

Definition unzip3 (r : nd triple) : pyval * pyval * pyval :=
  (nd_map (fun t => fst (fst t)) r, nd_map (fun t => snd (fst t)) r, nd_map (fun t => snd t) r).

Definition lift3 (f : pyfloat -> pyfloat -> pyfloat -> triple) (a b c : pyval) : py3 :=
  ab <- lift2 pair a b ;;
  r <- lift2 (fun p z => f (fst p) (snd p) z) ab c ;;
  Ok (unzip3 r).

Definition lift5 (f : pyfloat -> pyfloat -> pyfloat -> pyfloat -> pyfloat -> triple)
    (a b c d e : pyval) : py3 :=
  ab <- lift2 pair a b ;;
  abc <- lift2 pair ab c ;;
  abcd <- lift2 pair abc d ;;
  r <- lift2 (fun p z => f (fst (fst (fst p))) (snd (fst (fst p))) (snd (fst p)) (snd p) z) abcd e ;;
  Ok (unzip3 r).

Definition elementwise3 (f : bool -> pyfloat -> pyfloat -> pyfloat -> triple)
  : pyval -> pyval -> pyval -> bool -> py3 :=
  fun a b c deg => lift3 (f deg) a b c.

Definition elementwise5 (f : bool -> pyfloat -> pyfloat -> pyfloat -> pyfloat -> pyfloat -> triple)
  : pyval -> pyval -> pyval -> pyval -> pyval -> bool -> py3 :=
  fun a b c d e deg => lift5 (f deg) a b c d e.

(** The length numpy broadcasts one-dimensional operands to (a scalar counts
    as one element), when there is one. *)
Definition broadcast2 (m k : nat) : option nat :=
  if m =? k then Some m
  else if m =? 1 then Some k
  else if k =? 1 then Some m
  else None.

Fixpoint broadcast_length (vs : list pyval) : option nat :=
  match vs with
  | [] => Some 1
  | v :: vs' =>
      match broadcast_length vs' with
      | Some k => broadcast2 (size v) k
      | None => None
      end
  end.

(** The shape [squeeze_all] leaves of an array of [n] elements. *)
Definition squeezed (n : nat) (f : nat -> pyfloat) : pyval :=
  if n =? 1 then Scalar (f 0) else Array (map f (seq 0 n)).

(** ** What the function computes on one element

    The same lines of the source read on floats: this is the function the
    batched call applies to element [i] of its inputs. *)

Section OneElement.

Variable Ellipsoid_default : Ellipsoid.
Variable aer2enu_e : bool -> pyfloat -> pyfloat -> pyfloat -> triple.
Variable enu2uvw_e : bool -> pyfloat -> pyfloat -> pyfloat -> pyfloat -> pyfloat -> triple.
Variable geodetic2ecef_e : bool -> pyfloat -> pyfloat -> pyfloat -> triple.
Variable ecef2geodetic_e : bool -> pyfloat -> pyfloat -> pyfloat -> triple.

Local Open Scope expr_scope.

(** Line 83. *)
Definition elevation_e (tilt : pyfloat) (deg : bool) : pyfloat :=
  if deg then tilt - fin 90 else tilt - fin PI / 2.

(** Lines 85-86: the direction [(u, v, w)] of the line of sight. *)
Definition direction_e (lat0 lon0 az tilt : pyfloat) (deg : bool) : triple :=
  let '(e, n, u) := aer2enu_e deg az (elevation_e tilt deg) (fin 1) in
  enu2uvw_e deg e n u lat0 lon0.

(** Line 87: the observer [(x, y, z)]. *)
Definition observer_e (lat0 lon0 h0 : pyfloat) (deg : bool) : triple :=
  geodetic2ecef_e deg lat0 lon0 h0.

Definition axes (ell : option Ellipsoid) : triple :=
  let ell := match ell with None => Ellipsoid_default | Some e => e end in
  (semimajor_axis ell, semimajor_axis ell, semiminor_axis ell).

Definition value_e (lat0 lon0 h0 az tilt : pyfloat) (ell : option Ellipsoid) (deg : bool) : pyfloat :=
  let '(a, b, c) := axes ell in
  let '(u, v, w) := direction_e lat0 lon0 az tilt deg in
  let '(x, y, z) := observer_e lat0 lon0 h0 deg in
  value a b c u v w x y z.

Definition radical_e (lat0 lon0 h0 az tilt : pyfloat) (ell : option Ellipsoid) (deg : bool) : pyfloat :=
  let '(a, b, c) := axes ell in
  let '(u, v, w) := direction_e lat0 lon0 az tilt deg in
  let '(x, y, z) := observer_e lat0 lon0 h0 deg in
  radical a b c u v w x y z.

Definition magnitude_e (lat0 lon0 az tilt : pyfloat) (ell : option Ellipsoid) (deg : bool) : pyfloat :=
  let '(a, b, c) := axes ell in
  let '(u, v, w) := direction_e lat0 lon0 az tilt deg in
  magnitude a b c u v w.

(** Line 109 on one element. *)
Definition near_root_e (lat0 lon0 h0 az tilt : pyfloat) (ell : option Ellipsoid) (deg : bool) : pyfloat :=
  let '(a, b, c) := axes ell in
  near_root Float.sqrt a b c
    (value_e lat0 lon0 h0 az tilt ell deg)
    (radical_e lat0 lon0 h0 az tilt ell deg)
    (magnitude_e lat0 lon0 az tilt ell deg).

(** The other root, on one element. *)
Definition far_root_e (lat0 lon0 h0 az tilt : pyfloat) (ell : option Ellipsoid) (deg : bool) : pyfloat :=
  let '(a, b, c) := axes ell in
  far_root Float.sqrt a b c
    (value_e lat0 lon0 h0 az tilt ell deg)
    (radical_e lat0 lon0 h0 az tilt ell deg)
    (magnitude_e lat0 lon0 az tilt ell deg).

(** Lines 110-111 on one element of an array. *)
Definition masked (radical d : pyfloat) : pyfloat :=
  let d := if Float.ltb radical (fin 0) then nan else d in
  if Float.ltb d (fin 0) then nan else d.

(** Line 121 and the result, given the slant range [d]. *)
Definition finish_e (lat0 lon0 h0 az tilt : pyfloat) (deg : bool) (d : pyfloat) : triple :=
  let '(u, v, w) := direction_e lat0 lon0 az tilt deg in
  let '(x, y, z) := observer_e lat0 lon0 h0 deg in
  let '(lat, lon, _) := ecef2geodetic_e deg (along x d u) (along y d v) (along z d w) in
  (lat, lon, d).

(** One element of a call with numpy. *)
Definition look_e (lat0 lon0 h0 az tilt : pyfloat) (ell : option Ellipsoid) (deg : bool) : triple :=
  finish_e lat0 lon0 h0 az tilt deg
    (masked (radical_e lat0 lon0 h0 az tilt ell deg) (near_root_e lat0 lon0 h0 az tilt ell deg)).

(** A call on floats without numpy: [math.sqrt] raises below zero and the
    handler sets [d = nan]; otherwise the division raises on a zero
    divisor, and the item assignment of line 110 raises the [TypeError]
    that is passed over, so [d] stays what line 109 made it. *)
Definition look_math (lat0 lon0 h0 az tilt : pyfloat) (ell : option Ellipsoid) (deg : bool)
  : result triple :=
  if Float.ltb (radical_e lat0 lon0 h0 az tilt ell deg) (fin 0)
  then Ok (finish_e lat0 lon0 h0 az tilt deg nan)
  else if Float.is_zero (magnitude_e lat0 lon0 az tilt ell deg)
  then Raise ZeroDivisionError
  else Ok (finish_e lat0 lon0 h0 az tilt deg (near_root_e lat0 lon0 h0 az tilt ell deg)).

(** One element of a call, in either runtime. *)
Definition look_item (rt : runtime) (lat0 lon0 h0 az tilt : pyfloat) (ell : option Ellipsoid)
    (deg : bool) : result triple :=
  match rt with
  | WithNumpy => Ok (look_e lat0 lon0 h0 az tilt ell deg)
  | MathOnly => look_math lat0 lon0 h0 az tilt ell deg
  end.

End OneElement.

(** ** Angle units *)

Definition radians (x : pyfloat) : pyfloat := Float.mul x (fin (PI / 180)).
Definition degrees (x : pyfloat) : pyfloat := Float.mul x (fin (180 / PI)).

Definition vradians (v : pyval) : pyval := nd_map radians v.
Definition vdegrees (v : pyval) : pyval := nd_map degrees v.

(** The result of a call whose angles are radians, read in degrees. *)
Definition in_degrees (r : py3) : py3 :=
  '(lat, lon, d) <- r ;; Ok (vdegrees lat, vdegrees lon, d).

(** ** Vocabulary of the statements *)

(** The data model's invariant on an ellipsoid: [a >= b > 0]. *)
Definition valid_ellipsoid (e : Ellipsoid) : Prop :=
  match semimajor_axis e, semiminor_axis e with
  | fin a, fin b => (0 < b /\ b <= a)%R
  | _, _ => False
  end.

(** The ellipsoid a call works on. *)
Definition ellipsoid_of (default : Ellipsoid) (ell : option Ellipsoid) : Ellipsoid :=
  match ell with
  | None => default
  | Some e => e
  end.

(** [(X, Y, Z)] lies on the surface of the ellipsoid with semi-axes
    [(ax, ay, az)] along the three coordinate axes. *)
Definition on_ellipsoid (ax ay az X Y Z : R) : Prop :=
  ((X / ax) ^ 2 + (Y / ay) ^ 2 + (Z / az) ^ 2 = 1)%R.

(** [(X, Y, Z)] lies outside that ellipsoid, off its surface. *)
Definition outside_ellipsoid (ax ay az X Y Z : R) : Prop :=
  (1 < (X / ax) ^ 2 + (Y / ay) ^ 2 + (Z / az) ^ 2)%R.

(** The inputs a call can receive: with numpy, scalars and arrays that
    broadcast to [n] elements; without numpy, floats only. *)
Definition is_scalar (v : pyval) : Prop :=
  match v with
  | Scalar _ => True
  | Array _ => False
  end.

Definition admissible (rt : runtime) (args : list pyval) (n : nat) : Prop :=
  match rt with
  | WithNumpy => broadcast_length args = Some n
  | MathOnly => Forall is_scalar args /\ n = 1
  end.

(** A batch of floats as the call without numpy returns it. *)
Definition scalars (r : result triple) : py3 :=
  match r with
  | Ok (lat, lon, d) => Ok (Scalar lat, Scalar lon, Scalar d)
  | Raise e => Raise e
  end.

(** ** Vocabulary of the proofs

    [fits n v]: [v] broadcasts to [n] elements.  [rk v] orders the shapes
    that do: a scalar, then a one-element array, then any other array;
    broadcasting two operands gives the larger of their ranks. *)

Definition fits {A : Type} (n : nat) (v : nd A) : Prop :=
  match v with
  | Scalar _ => True
  | Array xs => length xs = 1 \/ length xs = n
  end.

Definition rk {A : Type} (v : nd A) : nat :=
  match v with
  | Scalar _ => 0
  | Array xs => if length xs =? 1 then 1 else 2
  end.

Definition rank_of (n : nat) : nat := if n =? 1 then 1 else 2.

(** The expression [x] evaluates to a value of rank [k] that broadcasts to
    [n] elements, element [i] being [f i]. *)
Definition El (n : nat) (x : py) (f : nat -> pyfloat) (k : nat) : Prop :=
  exists v, x = Ok v /\ fits n v /\ rk v = k /\ forall i, i < n -> item nan v i = f i.

(** The same for the three outputs of one elementwise call. *)
Definition El3 (n : nat) (x : py3) (f : nat -> triple) (k : nat) : Prop :=
  exists v1 v2 v3, x = Ok (v1, v2, v3) /\
    El n (Ok v1) (fun i => fst (fst (f i))) k /\
    El n (Ok v2) (fun i => snd (fst (f i))) k /\
    El n (Ok v3) (fun i => snd (f i)) k.

Definition nan3 : triple := (nan, nan, nan).

(** ** Stand-in collaborators

    The theorems below hold for every collaborator (or for every elementwise
    one).  To instantiate them at concrete inputs, here is one concrete set:
    the usual conversions on a sphere of the default equatorial radius,
    which agree with the ellipsoidal ones for an observer on the equator. *)

Module Stub.

(** Modelled from the spec: the standard reference ellipsoid, semi-major
    6378137.0 m and semi-minor 6356752.314245 m. *)
Definition Ellipsoid_default : Ellipsoid :=
  {| semimajor_axis := fin 6378137; semiminor_axis := fin (6356752314245 / 1000000) |}.

Definition lift1 (f : R -> R) (x : pyfloat) : pyfloat :=
  match x with
  | fin a => fin (f a)
  | nan => nan
  end.

Definition sin : pyfloat -> pyfloat := lift1 Rtrigo_def.sin.
Definition cos : pyfloat -> pyfloat := lift1 Rtrigo_def.cos.
Definition atan : pyfloat -> pyfloat := lift1 Ratan.atan.

(** An input angle in radians. *)
Definition angle (deg : bool) (x : pyfloat) : pyfloat := if deg then radians x else x.

Local Open Scope expr_scope.

Definition aer2enu_e (deg : bool) (az el srange : pyfloat) : triple :=
  let az := angle deg az in
  let el := angle deg el in
  let r := srange * cos el in
  (r * sin az, r * cos az, srange * sin el).

Definition enu2uvw_e (deg : bool) (east north up lat0 lon0 : pyfloat) : triple :=
  let lat0 := angle deg lat0 in
  let lon0 := angle deg lon0 in
  let t := cos lat0 * up - sin lat0 * north in
  let w := sin lat0 * up + cos lat0 * north in
  let u := cos lon0 * t - sin lon0 * east in
  let v := sin lon0 * t + cos lon0 * east in
  (u, v, w).

Definition geodetic2ecef_e (deg : bool) (lat lon alt : pyfloat) : triple :=
  let lat := angle deg lat in
  let lon := angle deg lon in
  let r := semimajor_axis Ellipsoid_default + alt in
  (r * cos lat * cos lon, r * cos lat * sin lon, r * sin lat).

Definition ecef2geodetic_rad (x y z : pyfloat) : triple :=
  let p := Float.sqrt (x * x + y * y) in
  let lat := atan (z / p) in
  let lon := 2 * atan (y / (p + x)) in
  let alt := Float.sqrt (x * x + y * y + z * z) - semimajor_axis Ellipsoid_default in
  (lat, lon, alt).

Definition ecef2geodetic_e (deg : bool) (x y z : pyfloat) : triple :=
  let '(lat, lon, alt) := ecef2geodetic_rad x y z in
  if deg then (degrees lat, degrees lon, alt) else (lat, lon, alt).

Definition aer2enu := elementwise3 aer2enu_e.
Definition enu2uvw := elementwise5 enu2uvw_e.
Definition geodetic2ecef := elementwise3 geodetic2ecef_e.
Definition ecef2geodetic := elementwise3 ecef2geodetic_e.

Definition lookAtSpheroid : runtime -> pyval -> pyval -> pyval -> pyval -> pyval ->
                            option Ellipsoid -> bool -> py3 :=
  lookAtSpheroid Ellipsoid_default aer2enu enu2uvw geodetic2ecef ecef2geodetic.

End Stub.

(** Collaborators that raise whatever they are given. *)
Definition failing3 : pyval -> pyval -> pyval -> bool -> py3 :=
  fun _ _ _ _ => Raise TypeError.
Definition failing5 : pyval -> pyval -> pyval -> pyval -> pyval -> bool -> py3 :=
  fun _ _ _ _ _ _ => Raise TypeError.

Unset Implicit Arguments.

(** * Proofs

    ** Lists and items *)

Lemma item_Array_one (A : Type) (d : A) (xs : list A) (i : nat) :
  length xs = 1 -> item d (Array xs) i = nth 0 xs d.
Proof.
  destruct xs as [|x [|y xs]]; simpl; intros; try discriminate; reflexivity.
Qed.

Lemma item_Array_many (A : Type) (d : A) (xs : list A) (i : nat) :
  length xs <> 1 -> item d (Array xs) i = nth i xs d.
Proof.
  destruct xs as [|x [|y xs]]; simpl; intros; try reflexivity. congruence.
Qed.

Lemma nth_zip_with (A B C : Type) (f : A -> B -> C) (dA : A) (dB : B) (dC : C) xs ys i :
  length xs = length ys -> i < length xs ->
  nth i (zip_with f xs ys) dC = f (nth i xs dA) (nth i ys dB).
Proof.
  intros Hlen Hi. unfold zip_with.
  rewrite (nth_indep _ dC (f dA dB)) by (rewrite length_map, length_combine; lia).
  change (f dA dB) with ((fun p : A * B => f (fst p) (snd p)) (dA, dB)).
  rewrite map_nth, combine_nth by assumption. reflexivity.
Qed.

Lemma length_zip_with (A B C : Type) (f : A -> B -> C) xs ys :
  length (zip_with f xs ys) = Nat.min (length xs) (length ys).
Proof. unfold zip_with. now rewrite length_map, length_combine. Qed.

Lemma nth_map_in (A B : Type) (f : A -> B) (dA : A) (dB : B) xs i :
  i < length xs -> nth i (map f xs) dB = f (nth i xs dA).
Proof.
  intros Hi. rewrite (nth_indep _ dB (f dA)) by (now rewrite length_map).
  apply map_nth.
Qed.

Lemma item_Scalar (A : Type) (d : A) (x : A) (i : nat) : item d (Scalar x) i = x.
Proof. reflexivity. Qed.

Lemma item_map (A B : Type) (g : A -> B) (dA : A) (dB : B) (n : nat) xs i :
  length xs = 1 \/ length xs = n -> i < n ->
  item dB (Array (map g xs)) i = g (item dA (Array xs) i).
Proof.
  intros Hn Hi. destruct (Nat.eq_dec (length xs) 1) as [E|E].
  - rewrite !item_Array_one by (rewrite ?length_map; lia). apply nth_map_in. lia.
  - rewrite !item_Array_many by (rewrite ?length_map; lia). apply nth_map_in. lia.
Qed.

Lemma rk_map (A B : Type) (g : A -> B) xs : rk (Array (map g xs)) = rk (Array xs).
Proof. unfold rk. now rewrite length_map. Qed.

Lemma fits_map (A B : Type) (g : A -> B) n xs : fits n (Array xs) -> fits n (Array (map g xs)).
Proof. unfold fits. now rewrite length_map. Qed.

Lemma lift2_spec (A B C : Type) (f : A -> B -> C) (dA : A) (dB : B) (dC : C)
    (n : nat) (v : nd A) (w : nd B) :
  fits n v -> fits n w ->
  exists r, lift2 f v w = Ok r /\ fits n r /\ rk r = Nat.max (rk v) (rk w) /\
            forall i, i < n -> item dC r i = f (item dA v i) (item dB w i).
Proof.
  intros Hv Hw. destruct v as [x|xs], w as [y|ys].
  - eexists; repeat split; reflexivity.
  - eexists; split; [reflexivity|]. split; [now apply fits_map|]. split; [now rewrite rk_map|].
    intros i Hi. rewrite item_Scalar. now apply item_map with (n := n).
  - eexists; split; [reflexivity|]. split; [now apply fits_map|].
    split; [rewrite rk_map; cbn [rk]; lia|].
    intros i Hi. rewrite item_Scalar. now apply (item_map _ _ (fun x => f x y)) with (n := n).
  - cbn [lift2]. unfold fits in Hv, Hw. destruct (Nat.eqb_spec (length xs) (length ys)) as [E|E].
    + eexists; split; [reflexivity|]. unfold fits, rk.
      rewrite length_zip_with, <- E, Nat.min_id.
      split; [assumption|]. split; [destruct (length xs =? 1); lia|].
      intros i Hi. destruct (Nat.eq_dec (length xs) 1) as [E1|E1].
      * rewrite !item_Array_one by (rewrite ?length_zip_with; lia).
        apply nth_zip_with; lia.
      * rewrite !item_Array_many by (rewrite ?length_zip_with; lia).
        apply nth_zip_with; lia.
    + assert (Hc : (length xs = 1 /\ length ys = n /\ n <> 1) \/
                   (length ys = 1 /\ length xs = n /\ n <> 1)) by lia.
      destruct Hc as [(Hx & Hy & Hn)|(Hy & Hx & Hn)].
      * destruct xs as [|x [|x' xs]]; try discriminate.
        eexists; split; [reflexivity|]. split; [apply fits_map; unfold fits; lia|].
        split.
        -- rewrite rk_map. unfold rk. cbn [length Nat.eqb].
           destruct (Nat.eqb_spec (length ys) 1); lia.
        -- intros i Hi. cbn [item]. apply item_map with (n := n); auto.
      * destruct ys as [|y [|y' ys]]; try discriminate.
        exists (Array (map (fun x => f x y) xs)). split.
        { destruct xs as [|x [|x' xs]]; reflexivity. }
        split; [apply fits_map; unfold fits; lia|]. split.
        -- rewrite rk_map. unfold rk. cbn [length Nat.eqb].
           destruct (Nat.eqb_spec (length xs) 1); lia.
        -- intros i Hi. cbn [item]. apply (item_map _ _ (fun x => f x y)) with (n := n); auto.
Qed.

(** ** The arithmetic, element by element *)

Lemma El_var n (v : pyval) : fits n v -> El n (Ok v) (fun i => item nan v i) (rk v).
Proof. intros Hv. exists v. auto. Qed.

Lemma El_scalar n (x : pyfloat) : El n (Ok (Scalar x)) (fun _ => x) 0.
Proof. exists (Scalar x). repeat split; auto. Qed.

Lemma El_lit n (r : R) : El n (plit r) (fun _ => fin r) 0.
Proof. apply El_scalar. Qed.

Lemma El_cast n x f g k k' :
  El n x f k -> k = k' -> (forall i, i < n -> f i = g i) -> El n x g k'.
Proof.
  intros (v & -> & Hf & Hk & Hi) <- Hfg. exists v. repeat split; auto.
  intros i Hlt. rewrite Hi by assumption. auto.
Qed.

Lemma El_ap2 n (op : pyfloat -> pyfloat -> pyfloat) x y f g k1 k2 :
  El n x f k1 -> El n y g k2 ->
  El n (ap2 (lift2 op) x y) (fun i => op (f i) (g i)) (Nat.max k1 k2).
Proof.
  intros (v & -> & Hv & <- & Hvi) (w & -> & Hw & <- & Hwi).
  destruct (@lift2_spec _ _ _ op nan nan nan n v w Hv Hw) as (r & Hr & Hfit & Hrk & Hitem).
  exists r. cbn [ap2 bind]. repeat split; auto.
  intros i Hi. rewrite Hitem, Hvi, Hwi by assumption. reflexivity.
Qed.

Lemma El_add n x y f g k1 k2 :
  El n x f k1 -> El n y g k2 -> El n (padd x y) (fun i => padd (f i) (g i)) (Nat.max k1 k2).
Proof. apply El_ap2. Qed.

Lemma El_sub n x y f g k1 k2 :
  El n x f k1 -> El n y g k2 -> El n (psub x y) (fun i => psub (f i) (g i)) (Nat.max k1 k2).
Proof. apply El_ap2. Qed.

Lemma El_mul n x y f g k1 k2 :
  El n x f k1 -> El n y g k2 -> El n (pmul x y) (fun i => pmul (f i) (g i)) (Nat.max k1 k2).
Proof. apply El_ap2. Qed.

Lemma nd_map_spec (A B : Type) (g : A -> B) (dA : A) (dB : B) n (v : nd A) :
  fits n v ->
  fits n (nd_map g v) /\ rk (nd_map g v) = rk v /\
  forall i, i < n -> item dB (nd_map g v) i = g (item dA v i).
Proof.
  intros Hv. destruct v as [x|xs]; cbn [nd_map].
  - repeat split; auto.
  - split; [now apply fits_map|]. split; [apply rk_map|].
    intros i Hi. now apply item_map with (n := n).
Qed.

Lemma El_ap1 n (op : pyfloat -> pyfloat) x f k :
  El n x f k -> El n (ap1 (fun a => Ok (nd_map op a)) x) (fun i => op (f i)) k.
Proof.
  intros (v & -> & Hv & <- & Hvi).
  destruct (@nd_map_spec _ _ op nan nan n v Hv) as (Hfit & Hrk & Hitem).
  exists (nd_map op v). cbn [ap1 bind]. repeat split; auto.
  intros i Hi. rewrite Hitem, Hvi by assumption. reflexivity.
Qed.

Lemma El_neg n x f k : El n x f k -> El n (pneg x) (fun i => pneg (f i)) k.
Proof. apply El_ap1. Qed.

Lemma El_sqrt n x f k :
  El n x f k -> El n (ap1 (sqrt WithNumpy) x) (fun i => Float.sqrt (f i)) k.
Proof. apply (El_ap1 n Float.sqrt). Qed.

Lemma truediv_Array (v w : pyval) : 1 <= rk v -> truediv v w = lift2 Float.div v w.
Proof. destruct v as [x|xs]; cbn [rk]; [lia|]. reflexivity. Qed.

Lemma El_div n x y f g k1 k2 :
  El n x f k1 -> El n y g k2 -> 1 <= k1 ->
  El n (pdiv x y) (fun i => pdiv (f i) (g i)) (Nat.max k1 k2).
Proof.
  intros (v & -> & Hv & <- & Hvi) (w & -> & Hw & <- & Hwi) Hk.
  destruct (@lift2_spec _ _ _ Float.div nan nan nan n v w Hv Hw) as (r & Hr & Hfit & Hrk & Hitem).
  exists r. cbn [pdiv py_Arith ap2 bind]. rewrite truediv_Array by assumption.
  repeat split; auto.
  intros i Hi. rewrite Hitem, Hvi, Hwi by assumption. reflexivity.
Qed.

Ltac El_step :=
  first [ eapply El_add | eapply El_sub | eapply El_mul | eapply El_neg
        | eapply El_lit | eapply El_scalar | eassumption ].

(** [k <= e] where [k] is a leaf of the nest of [Nat.max] that [e] is. *)
Ltac in_max :=
  match goal with
  | |- ?k <= ?k => apply Nat.le_refl
  | |- 0 <= _ => apply Nat.le_0_l
  | |- ?k <= Nat.max ?A ?B =>
      first [ apply (Nat.le_trans _ A); [ in_max | apply Nat.le_max_l ]
            | apply (Nat.le_trans _ B); [ in_max | apply Nat.le_max_r ] ]
  end.

(** Two nests of [Nat.max] over the same leaves are equal. *)
Ltac max_eq := apply Nat.le_antisymm; repeat apply Nat.max_lub; in_max.

Section FormulaEl.
Variables (n : nat) (a b c u v w x y z : py) (fa fb fc fu fv fw fx fy fz : nat -> pyfloat).
Variables (ka kb kc ku kv kw kx ky kz : nat).
Hypothesis Ha : El n a fa ka.
Hypothesis Hb : El n b fb kb.
Hypothesis Hc : El n c fc kc.
Hypothesis Hu : El n u fu ku.
Hypothesis Hv : El n v fv kv.
Hypothesis Hw : El n w fw kw.
Hypothesis Hx : El n x fx kx.
Hypothesis Hy : El n y fy ky.
Hypothesis Hz : El n z fz kz.

Lemma El_value :
  El n (value a b c u v w x y z)
     (fun i => value (fa i) (fb i) (fc i) (fu i) (fv i) (fw i) (fx i) (fy i) (fz i))
     (Nat.max (Nat.max ka (Nat.max kb (Nat.max kc (Nat.max ku (Nat.max kv kw)))))
        (Nat.max kx (Nat.max ky kz))).
Proof.
  eapply El_cast.
  - unfold value. repeat El_step.
  - max_eq.
  - reflexivity.
Qed.

Lemma El_radical :
  El n (radical a b c u v w x y z)
     (fun i => radical (fa i) (fb i) (fc i) (fu i) (fv i) (fw i) (fx i) (fy i) (fz i))
     (Nat.max (Nat.max ka (Nat.max kb (Nat.max kc (Nat.max ku (Nat.max kv kw)))))
        (Nat.max kx (Nat.max ky kz))).
Proof.
  eapply El_cast.
  - unfold radical. repeat El_step.
  - max_eq.
  - reflexivity.
Qed.

Lemma El_magnitude :
  El n (magnitude a b c u v w)
     (fun i => magnitude (fa i) (fb i) (fc i) (fu i) (fv i) (fw i))
     (Nat.max ka (Nat.max kb (Nat.max kc (Nat.max ku (Nat.max kv kw))))).
Proof.
  eapply El_cast.
  - unfold magnitude. repeat El_step.
  - max_eq.
  - reflexivity.
Qed.
End FormulaEl.

(** ** Collaborator calls and the masked slant range *)

Lemma El_of n (v : pyval) f k :
  fits n v -> rk v = k -> (forall i, i < n -> item nan v i = f i) -> El n (Ok v) f k.
Proof. intros. exists v. auto. Qed.

Lemma unzip3_El n (r : nd triple) f k :
  fits n r -> rk r = k -> (forall i, i < n -> item nan3 r i = f i) ->
  El3 n (Ok (unzip3 r)) f k.
Proof.
  intros Hr Hk Hi. unfold unzip3.
  destruct (@nd_map_spec _ _ (fun t : triple => fst (fst t)) nan3 nan n r Hr) as (F1 & R1 & I1).
  destruct (@nd_map_spec _ _ (fun t : triple => snd (fst t)) nan3 nan n r Hr) as (F2 & R2 & I2).
  destruct (@nd_map_spec _ _ (fun t : triple => snd t) nan3 nan n r Hr) as (F3 & R3 & I3).
  do 3 eexists. split; [reflexivity|].
  subst k. split; [|split]; apply El_of; auto; intros i Hlt.
  - rewrite <- (Hi i Hlt). exact (I1 i Hlt).
  - rewrite <- (Hi i Hlt). exact (I2 i Hlt).
  - rewrite <- (Hi i Hlt). exact (I3 i Hlt).
Qed.

Lemma lift3_El n f (a b c : pyval) fa fb fc ka kb kc :
  El n (Ok a) fa ka -> El n (Ok b) fb kb -> El n (Ok c) fc kc ->
  El3 n (lift3 f a b c) (fun i => f (fa i) (fb i) (fc i)) (Nat.max (Nat.max ka kb) kc).
Proof.
  intros (a' & Ea & Ha & <- & Ia) (b' & Eb & Hb & <- & Ib) (c' & Ec & Hc & <- & Ic).
  injection Ea as <-. injection Eb as <-. injection Ec as <-.
  unfold lift3.
  destruct (@lift2_spec _ _ _ (@pair pyfloat pyfloat) nan nan (nan, nan) n a b Ha Hb)
    as (ab & -> & Hab & Rab & Iab).
  cbn [bind].
  destruct (@lift2_spec _ _ _ (fun (p : pyfloat * pyfloat) z => f (fst p) (snd p) z)
              (nan, nan) nan nan3 n ab c Hab Hc) as (r & -> & Hr & Rr & Ir).
  cbn [bind]. apply unzip3_El; auto.
  - congruence.
  - intros i Hi. rewrite Ir, Iab, Ia, Ib, Ic by assumption. reflexivity.
Qed.

Lemma lift5_El n f (a b c d e : pyval) fa fb fc fd fe ka kb kc kd ke :
  El n (Ok a) fa ka -> El n (Ok b) fb kb -> El n (Ok c) fc kc ->
  El n (Ok d) fd kd -> El n (Ok e) fe ke ->
  El3 n (lift5 f a b c d e) (fun i => f (fa i) (fb i) (fc i) (fd i) (fe i))
     (Nat.max (Nat.max (Nat.max (Nat.max ka kb) kc) kd) ke).
Proof.
  intros (a' & Ea & Ha & <- & Ia) (b' & Eb & Hb & <- & Ib) (c' & Ec & Hc & <- & Ic)
         (d' & Ed & Hd & <- & Id) (e' & Ee & He & <- & Ie).
  injection Ea as <-. injection Eb as <-. injection Ec as <-.
  injection Ed as <-. injection Ee as <-.
  unfold lift5.
  destruct (@lift2_spec _ _ _ (@pair pyfloat pyfloat) nan nan (nan, nan) n a b Ha Hb)
    as (ab & -> & Hab & Rab & Iab).
  cbn [bind].
  destruct (@lift2_spec _ _ _ (@pair (pyfloat * pyfloat) pyfloat) (nan, nan) nan (nan, nan, nan)
              n ab c Hab Hc) as (abc & -> & Habc & Rabc & Iabc).
  cbn [bind].
  destruct (@lift2_spec _ _ _ (@pair (pyfloat * pyfloat * pyfloat) pyfloat) (nan, nan, nan) nan
              (nan, nan, nan, nan) n abc d Habc Hd) as (abcd & -> & Habcd & Rabcd & Iabcd).
  cbn [bind].
  destruct (@lift2_spec _ _ _
              (fun (p : pyfloat * pyfloat * pyfloat * pyfloat) z =>
                 f (fst (fst (fst p))) (snd (fst (fst p))) (snd (fst p)) (snd p) z)
              (nan, nan, nan, nan) nan nan3 n abcd e Habcd He) as (r & -> & Hr & Rr & Ir).
  cbn [bind]. apply unzip3_El; auto.
  - congruence.
  - intros i Hi. rewrite Ir, Iabcd, Iabc, Iab, Ia, Ib, Ic, Id, Ie by assumption. reflexivity.
Qed.

(** Same rank, same length. *)
Lemma same_rank_length (A B : Type) n (xs : list A) (ys : list B) :
  fits n (Array xs) -> fits n (Array ys) -> rk (Array xs) = rk (Array ys) ->
  length xs = length ys.
Proof.
  unfold fits, rk. intros Hx Hy.
  destruct (Nat.eqb_spec (length xs) 1), (Nat.eqb_spec (length ys) 1); intros; try lia.
Qed.

Lemma setitem_spec n (d : pyval) (m : pybool) (x : pyfloat) k :
  fits n d -> fits n m -> rk d = k -> rk m = k -> 1 <= k ->
  exists r, setitem d m x = Ok r /\ fits n r /\ rk r = k /\
    forall i, i < n -> item nan r i = if item false m i then x else item nan d i.
Proof.
  intros Hd Hm Rd Rm Hk.
  destruct d as [d|ds]; [cbn in Rd; lia|]. destruct m as [b|bs]; [cbn in Rm; lia|].
  assert (Hlen : length ds = length bs) by (eapply same_rank_length; eauto; congruence).
  cbn [setitem]. rewrite Hlen, Nat.eqb_refl.
  eexists; split; [reflexivity|].
  assert (Hl : length (zip_with (fun (d : pyfloat) (b : bool) => if b then x else d) ds bs) = length ds)
    by (rewrite length_zip_with; lia).
  split; [unfold fits in *; rewrite Hl; assumption|].
  split; [unfold rk in *; rewrite Hl; assumption|].
  intros i Hi. unfold fits in Hd. destruct (Nat.eq_dec (length ds) 1) as [E|E].
  - rewrite !item_Array_one by lia.
    rewrite (nth_zip_with _ _ _ _ nan false nan) by lia. reflexivity.
  - rewrite !item_Array_many by lia.
    rewrite (nth_zip_with _ _ _ _ nan false nan) by lia. reflexivity.
Qed.

Lemma lt_zero_spec n (v : pyval) :
  fits n v ->
  exists m, lt v (Scalar (fin 0)) = Ok m /\ fits n m /\ rk m = rk v /\
    forall i, i < n -> item false m i = Float.ltb (item nan v i) (fin 0).
Proof.
  intros Hv. unfold lt.
  destruct (@lift2_spec _ _ _ Float.ltb nan nan false n v (Scalar (fin 0)) Hv I)
    as (m & Hm & Fm & Rm & Im).
  exists m. repeat split; auto. cbn [rk] in Rm. lia.
Qed.

Section Slant.
Variables (n : nat) (a b c : pyfloat) (value radical magnitude : pyval).
Variables (fv fr fm : nat -> pyfloat) (k km : nat).
Hypothesis Hv : El n (Ok value) fv k.
Hypothesis Hr : El n (Ok radical) fr k.
Hypothesis Hm : El n (Ok magnitude) fm km.
Hypothesis Hk : 1 <= k.
Hypothesis Hkm : km <= k.

Lemma slant_range_numpy :
  El n (slant_range WithNumpy (Scalar a) (Scalar b) (Scalar c) value radical magnitude)
     (fun i => masked (fr i) (near_root Float.sqrt a b c (fv i) (fr i) (fm i))) k.
Proof.
  unfold slant_range, try_body.
  match goal with
  | |- context [near_root ?s ?a' ?b' ?c' ?v' ?r' ?m'] =>
      assert (H0 : El n (near_root s a' b' c' v' r' m')
                     (fun i => near_root Float.sqrt a b c (fv i) (fr i) (fm i)) k)
  end.
  { eapply El_cast.
    - unfold near_root. eapply El_div.
      + eapply El_sub; [eassumption|]. eapply El_mul; [|eapply El_sqrt; eassumption].
        eapply El_mul; [eapply El_mul|]; apply El_scalar.
      + eassumption.
      + lia.
    - lia.
    - reflexivity. }
  destruct H0 as (d0 & E0 & F0 & R0 & I0).
  destruct Hr as (r' & Er & Fr & Rr & Ir). injection Er as <-.
  rewrite E0.
  destruct (lt_zero_spec n radical Fr) as (m1 & -> & Fm1 & Rm1 & Im1). cbn [bind].
  destruct (setitem_spec n d0 m1 nan k F0 Fm1 R0 ltac:(congruence) Hk)
    as (d1 & -> & F1 & R1 & I1).
  destruct (lt_zero_spec n d1 F1) as (m2 & -> & Fm2 & Rm2 & Im2). cbn [bind].
  destruct (setitem_spec n d1 m2 nan k F1 Fm2 R1 ltac:(congruence) Hk)
    as (d2 & -> & F2 & R2 & I2).
  exists d2. repeat split; auto.
  intros i Hi. rewrite I2, Im2, I1, Im1, I0, Ir by assumption. reflexivity.
Qed.
End Slant.

(** ** Broadcasting, [atleast_1d] and [squeeze] *)

Lemma fits_size (A : Type) n (v : nd A) : fits n v <-> (size v = 1 \/ size v = n).
Proof. destruct v; cbn; tauto. Qed.

Lemma broadcast_length_spec vs n :
  broadcast_length vs = Some n ->
  Forall (fun v : pyval => size v = 1 \/ size v = n) vs /\
  (n = 1 \/ Exists (fun v : pyval => size v = n) vs).
Proof.
  revert n. induction vs as [|v vs IH]; intros n H; cbn in H.
  - injection H as <-. auto.
  - destruct (broadcast_length vs) as [k|]; [|discriminate].
    destruct (IH k eq_refl) as (Hall & Hex). unfold broadcast2 in H.
    destruct (Nat.eqb_spec (size v) k) as [E|E].
    { injection H as <-. subst k. split; [constructor; auto|]. right. now constructor. }
    destruct (Nat.eqb_spec (size v) 1) as [E1|E1].
    { injection H as <-. split; [constructor; auto|].
      destruct Hex as [->|Hex]; [now left|right; now constructor 2]. }
    destruct (Nat.eqb_spec k 1) as [Ek|Ek]; [|discriminate].
    injection H as <-. subst k. split.
    + constructor; [auto|]. eapply Forall_impl; [|exact Hall]. cbn. intros a [?|?]; auto.
    + right. now constructor.
Qed.

Lemma fits_atleast_1d n v : fits n v -> fits n (np.atleast_1d v).
Proof. destruct v; cbn; auto. Qed.

Lemma rk_atleast_1d v : rk (np.atleast_1d v) = rank_of (size v).
Proof. destruct v; reflexivity. Qed.

Lemma item_atleast_1d v i : item nan (np.atleast_1d v) i = item nan v i.
Proof. destruct v; reflexivity. Qed.

Lemma rk_size (A : Type) (v : nd A) : rk v <= rank_of (size v) /\ (size v <> 1 -> rk v = 2).
Proof.
  destruct v as [x|xs]; cbn.
  - split; [lia|congruence].
  - unfold rank_of. destruct (Nat.eqb_spec (length xs) 1); split; auto; lia.
Qed.

Lemma rank_total lat0 lon0 h0 az tilt n :
  broadcast_length [lat0; lon0; h0; az; tilt] = Some n ->
  Nat.max (rk (np.atleast_1d lat0))
    (Nat.max (rk (np.atleast_1d lon0))
       (Nat.max (rk (np.atleast_1d tilt)) (Nat.max (rk az) (rk h0)))) = rank_of n.
Proof.
  intros H. apply broadcast_length_spec in H. destruct H as (Hall & Hex).
  rewrite !rk_atleast_1d.
  inversion_clear Hall as [|? ? H1 Hall1]. inversion_clear Hall1 as [|? ? H2 Hall2].
  inversion_clear Hall2 as [|? ? H3 Hall3]. inversion_clear Hall3 as [|? ? H4 Hall4].
  inversion_clear Hall4 as [|? ? H5 _].
  destruct (rk_size _ az) as (Ba & Ca). destruct (rk_size _ h0) as (Bh & Ch).
  unfold rank_of in *.
  destruct (Nat.eqb_spec n 1) as [->|Hn].
  - replace (size lat0) with 1 by lia. replace (size lon0) with 1 by lia.
    replace (size tilt) with 1 by lia. replace (size az) with 1 in Ba by lia.
    replace (size h0) with 1 in Bh by lia. cbn [Nat.eqb] in *. lia.
  - destruct Hex as [?|Hex]; [contradiction|].
    assert (Hle : forall m, (if m =? 1 then 1 else 2) <= 2) by (intros m; destruct (m =? 1); lia).
    pose proof (Hle (size lat0)). pose proof (Hle (size lon0)). pose proof (Hle (size tilt)).
    pose proof (Hle (size az)). pose proof (Hle (size h0)).
    assert (Hn' : (n =? 1) = false) by (now apply Nat.eqb_neq).
    repeat match goal with
           | H : Exists _ (_ :: _) |- _ => inversion_clear H
           | H : Exists _ [] |- _ => inversion H
           end;
      match goal with E : size _ = n |- _ => try rewrite E in *; try rewrite Hn' in * end;
      try (specialize (Ca ltac:(lia))); try (specialize (Ch ltac:(lia))); lia.
Qed.

Lemma is_zero_two : Float.is_zero (fin 2) = false.
Proof. unfold Float.is_zero. destruct (Req_dec_T 2 0); [lra|reflexivity]. Qed.

Lemma El_elevation n t deg :
  fits n t -> El n (elevation t deg) (fun i => elevation_e (item nan t i) deg) (rk t).
Proof.
  intros Ht. unfold elevation, elevation_e. destruct deg.
  - eapply El_cast; [eapply El_sub; [apply El_var; exact Ht | apply El_lit] | lia | reflexivity].
  - eapply El_cast.
    + eapply El_sub; [apply El_var; exact Ht |].
      cbn [pdiv py_Arith ap2 bind pi plit truediv]. rewrite is_zero_two. apply El_scalar.
    + lia.
    + reflexivity.
Qed.

Lemma squeeze_spec n v f :
  El n (Ok v) f (rank_of n) -> squeeze v = Ok (squeezed n f).
Proof.
  intros (v' & E & Hf & Hr & Hi). injection E as <-.
  destruct v as [x|xs]; [unfold rank_of in Hr; cbn in Hr; destruct (n =? 1); lia|].
  unfold squeezed, rank_of, rk, fits in *.
  destruct (Nat.eqb_spec n 1) as [->|Hn].
  - destruct (Nat.eqb_spec (length xs) 1) as [E|E]; [|lia].
    destruct xs as [|x [|y xs]]; try discriminate.
    cbn. rewrite <- (Hi 0) by lia. reflexivity.
  - destruct (Nat.eqb_spec (length xs) 1) as [E|E]; [lia|].
    assert (Hlen : length xs = n) by lia.
    replace (squeeze (Array xs)) with (Ok (Array xs))
      by (destruct xs as [|x [|y xs]]; try reflexivity; cbn in E; lia).
    apply (f_equal (fun l : list pyfloat => Ok (Array l))). apply (nth_ext _ _ nan nan).
    + now rewrite length_map, length_seq.
    + intros i Hlt. rewrite <- (item_Array_many _ nan xs i E), Hi by lia.
      rewrite (nth_map_in _ _ f 0 nan) by (rewrite length_seq; lia).
      rewrite seq_nth by lia. reflexivity.
Qed.

Lemma squeeze_all_spec n lat lon d flat flon fd :
  El n (Ok lat) flat (rank_of n) -> El n (Ok lon) flon (rank_of n) ->
  El n (Ok d) fd (rank_of n) ->
  squeeze_all lat lon d = Ok (squeezed n flat, squeezed n flon, squeezed n fd).
Proof.
  intros H1 H2 H3. unfold squeeze_all.
  rewrite (squeeze_spec _ _ _ H1), (squeeze_spec _ _ _ H2), (squeeze_spec _ _ _ H3).
  reflexivity.
Qed.

(** ** The call with numpy *)

Lemma El_inv n x f k : El n x f k -> exists v, x = Ok v /\ El n (Ok v) f k.
Proof. intros (v & -> & H). exists v. split; [reflexivity|]. exists v. auto. Qed.

Lemma El3_inv n x f k :
  El3 n x f k ->
  exists v1 v2 v3, x = Ok (v1, v2, v3) /\
    El n (Ok v1) (fun i => fst (fst (f i))) k /\
    El n (Ok v2) (fun i => snd (fst (f i))) k /\
    El n (Ok v3) (fun i => snd (f i)) k.
Proof. exact (fun H => H). Qed.

Lemma rank_of_pos n : 1 <= rank_of n.
Proof. unfold rank_of. destruct (n =? 1); lia. Qed.

Section Numpy.

Variable D : Ellipsoid.
Variable aer : bool -> pyfloat -> pyfloat -> pyfloat -> triple.
Variable enu : bool -> pyfloat -> pyfloat -> pyfloat -> pyfloat -> pyfloat -> triple.
Variable g2e : bool -> pyfloat -> pyfloat -> pyfloat -> triple.
Variable e2g : bool -> pyfloat -> pyfloat -> pyfloat -> triple.

Lemma lookAtSpheroid_numpy lat0 lon0 h0 az tilt ell deg n :
  broadcast_length [lat0; lon0; h0; az; tilt] = Some n ->
  altitude_is_negative h0 = Ok false ->
  lookAtSpheroid D (elementwise3 aer) (elementwise5 enu) (elementwise3 g2e) (elementwise3 e2g)
    WithNumpy lat0 lon0 h0 az tilt ell deg =
  Ok (squeezed n (fun i => fst (fst (look_e D aer enu g2e e2g (item nan lat0 i) (item nan lon0 i)
                                       (item nan h0 i) (item nan az i) (item nan tilt i) ell deg))),
      squeezed n (fun i => snd (fst (look_e D aer enu g2e e2g (item nan lat0 i) (item nan lon0 i)
                                       (item nan h0 i) (item nan az i) (item nan tilt i) ell deg))),
      squeezed n (fun i => snd (look_e D aer enu g2e e2g (item nan lat0 i) (item nan lon0 i)
                                  (item nan h0 i) (item nan az i) (item nan tilt i) ell deg))).
Proof.
  intros HB HG.
  pose proof (rank_total _ _ _ _ _ _ HB) as HK.
  destruct (broadcast_length_spec _ _ HB) as (Hall & _).
  inversion_clear Hall as [|? ? H1 Hall1]. inversion_clear Hall1 as [|? ? H2 Hall2].
  inversion_clear Hall2 as [|? ? H3 Hall3]. inversion_clear Hall3 as [|? ? H4 Hall4].
  inversion_clear Hall4 as [|? ? H5 _].
  apply fits_size in H1, H2, H3, H4, H5.
  unfold lookAtSpheroid. rewrite HG.
  cbn [bind try_atleast_1d atleast_1d].
  assert (Elat : El n (Ok (np.atleast_1d lat0)) (fun i => item nan lat0 i) (rk (np.atleast_1d lat0))).
  { apply El_of; auto using fits_atleast_1d. intros; apply item_atleast_1d. }
  assert (Elon : El n (Ok (np.atleast_1d lon0)) (fun i => item nan lon0 i) (rk (np.atleast_1d lon0))).
  { apply El_of; auto using fits_atleast_1d. intros; apply item_atleast_1d. }
  assert (Eh : El n (Ok h0) (fun i => item nan h0 i) (rk h0)) by (now apply El_var).
  assert (Eaz : El n (Ok az) (fun i => item nan az i) (rk az)) by (now apply El_var).
  assert (Eel : El n (elevation (np.atleast_1d tilt) deg)
                  (fun i => elevation_e (item nan tilt i) deg) (rk (np.atleast_1d tilt))).
  { eapply El_cast; [apply El_elevation; now apply fits_atleast_1d | reflexivity |].
    intros i _. cbv beta. now rewrite item_atleast_1d. }
  generalize dependent (np.atleast_1d lat0). intros lat0'. intros.
  generalize dependent (np.atleast_1d lon0). intros lon0'. intros.
  generalize dependent (np.atleast_1d tilt). intros tilt'. intros.
  apply El_inv in Eel. destruct Eel as (el & -> & Eel). cbn [bind].
  unfold elementwise3, elementwise5.
  set (dir := fun i => direction_e aer enu (item nan lat0 i) (item nan lon0 i)
                       (item nan az i) (item nan tilt i) deg).
  set (obs := fun i => observer_e g2e (item nan lat0 i) (item nan lon0 i) (item nan h0 i) deg).
  set (kd := Nat.max (rk az) (Nat.max (rk tilt') (Nat.max (rk lat0') (rk lon0')))).
  set (ko := Nat.max (rk lat0') (Nat.max (rk lon0') (rk h0))).
  destruct (lift3_El n (aer deg) az el (Scalar (fin 1)) _ _ _ _ _ _ Eaz Eel (El_scalar n (fin 1)))
    as (e & nn & u0 & -> & Ee & En & Eu0).
  cbn [bind].
  destruct (lift5_El n (enu deg) e nn u0 lat0' lon0' _ _ _ _ _ _ _ _ _ _ Ee En Eu0 Elat Elon)
    as (u & v & w & -> & Eu & Ev & Ew).
  cbn [bind].
  assert (Hdir : forall i,
    enu deg (fst (fst (aer deg (item nan az i) (elevation_e (item nan tilt i) deg) (fin 1))))
      (snd (fst (aer deg (item nan az i) (elevation_e (item nan tilt i) deg) (fin 1))))
      (snd (aer deg (item nan az i) (elevation_e (item nan tilt i) deg) (fin 1)))
      (item nan lat0 i) (item nan lon0 i) = dir i).
  { intros i. unfold dir, direction_e.
    destruct (aer deg (item nan az i) (elevation_e (item nan tilt i) deg) (fin 1)) as [[? ?] ?].
    reflexivity. }
  apply (El_cast _ _ _ (fun i => fst (fst (dir i))) _ kd) in Eu;
    [| unfold kd; max_eq | intros i _; cbv beta; now rewrite Hdir].
  apply (El_cast _ _ _ (fun i => snd (fst (dir i))) _ kd) in Ev;
    [| unfold kd; max_eq | intros i _; cbv beta; now rewrite Hdir].
  apply (El_cast _ _ _ (fun i => snd (dir i)) _ kd) in Ew;
    [| unfold kd; max_eq | intros i _; cbv beta; now rewrite Hdir].
  clear Ee En Eu0 Hdir.
  destruct (lift3_El n (g2e deg) lat0' lon0' h0 _ _ _ _ _ _ Elat Elon Eh)
    as (x & y & z & -> & Ex & Ey & Ez).
  cbn [bind].
  apply (El_cast _ _ _ (fun i => fst (fst (obs i))) _ ko) in Ex;
    [| unfold ko; max_eq | reflexivity].
  apply (El_cast _ _ _ (fun i => snd (fst (obs i))) _ ko) in Ey;
    [| unfold ko; max_eq | reflexivity].
  apply (El_cast _ _ _ (fun i => snd (obs i)) _ ko) in Ez;
    [| unfold ko; max_eq | reflexivity].
  assert (HKd : kd <= rank_of n) by (rewrite <- HK; unfold kd; repeat apply Nat.max_lub; in_max).
  assert (HKf : Nat.max kd ko = rank_of n) by (rewrite <- HK; unfold kd, ko; max_eq).
  clearbody kd ko. clear HK.
  assert (HKf' : Nat.max (Nat.max 0 (Nat.max 0 (Nat.max 0 (Nat.max kd (Nat.max kd kd)))))
                   (Nat.max ko (Nat.max ko ko)) = rank_of n)
    by (rewrite <- HKf; max_eq).
  assert (HKd' : Nat.max 0 (Nat.max 0 (Nat.max 0 (Nat.max kd (Nat.max kd kd)))) = kd) by max_eq.
  set (a := semimajor_axis match ell with Some e0 => e0 | None => D end).
  set (c := semiminor_axis match ell with Some e0 => e0 | None => D end).
  pose proof (El_scalar n a) as Ea. pose proof (El_scalar n c) as Ec.
  match goal with
  | |- bind ?X _ = _ =>
      destruct (El_inv n X _ _ (El_cast _ _ _ _ _ _
                  (El_value n _ _ _ _ _ _ _ _ _ _ _ _ _ _ _ _ _ _ _ _ _ _ _ _ _ _ _
                     Ea Ea Ec Eu Ev Ew Ex Ey Ez) HKf' (fun i _ => eq_refl)))
        as (val & -> & Eval)
  end.
  cbn [bind].
  match goal with
  | |- bind ?X _ = _ =>
      destruct (El_inv n X _ _ (El_cast _ _ _ _ _ _
                  (El_radical n _ _ _ _ _ _ _ _ _ _ _ _ _ _ _ _ _ _ _ _ _ _ _ _ _ _ _
                     Ea Ea Ec Eu Ev Ew Ex Ey Ez) HKf' (fun i _ => eq_refl)))
        as (rad & -> & Erad)
  end.
  cbn [bind].
  match goal with
  | |- bind ?X _ = _ =>
      destruct (El_inv n X _ _ (El_cast _ _ _ _ _ _
                  (El_magnitude n _ _ _ _ _ _ _ _ _ _ _ _ _ _ _ _ _ _
                     Ea Ea Ec Eu Ev Ew) HKd' (fun i _ => eq_refl)))
        as (mag & -> & Emag)
  end.
  cbn [bind].
  destruct (El_inv _ _ _ _ (slant_range_numpy n a a c val rad mag _ _ _ _ _
                              Eval Erad Emag (rank_of_pos n) HKd)) as (d & -> & Ed).
  cbn [bind].
  assert (HKx : Nat.max ko (Nat.max (rank_of n) kd) = rank_of n)
    by (rewrite <- HKf; apply Nat.le_antisymm; repeat apply Nat.max_lub;
        first [in_max | rewrite HKf; in_max | rewrite HKf; assumption]).
  set (fd := fun i => masked (radical_e D aer enu g2e (item nan lat0 i) (item nan lon0 i)
                                (item nan h0 i) (item nan az i) (item nan tilt i) ell deg)
                             (near_root_e D aer enu g2e (item nan lat0 i) (item nan lon0 i)
                                (item nan h0 i) (item nan az i) (item nan tilt i) ell deg)).
  apply (El_cast _ _ _ fd _ (rank_of n)) in Ed; [| reflexivity |].
  2:{ intros i _. unfold fd, near_root_e, radical_e, value_e, magnitude_e, axes.
      fold a c. change (direction_e aer enu _ _ _ _ _) with (dir i).
      change (observer_e g2e _ _ _ _) with (obs i).
      destruct (dir i) as [[? ?] ?], (obs i) as [[? ?] ?]. reflexivity. }
  unfold along.
  match goal with
  | |- bind ?X _ = _ =>
      destruct (El_inv n X _ _ (El_cast _ _ _ _ _ _
                  (El_add _ _ _ _ _ _ _ Ex (El_mul _ _ _ _ _ _ _ Ed Eu))
                  HKx (fun i _ => eq_refl))) as (px & -> & Ex')
  end.
  cbn [bind].
  match goal with
  | |- bind ?X _ = _ =>
      destruct (El_inv n X _ _ (El_cast _ _ _ _ _ _
                  (El_add _ _ _ _ _ _ _ Ey (El_mul _ _ _ _ _ _ _ Ed Ev))
                  HKx (fun i _ => eq_refl))) as (py & -> & Ey')
  end.
  cbn [bind].
  match goal with
  | |- bind ?X _ = _ =>
      destruct (El_inv n X _ _ (El_cast _ _ _ _ _ _
                  (El_add _ _ _ _ _ _ _ Ez (El_mul _ _ _ _ _ _ _ Ed Ew))
                  HKx (fun i _ => eq_refl))) as (pz & -> & Ez')
  end.
  cbn [bind].
  destruct (lift3_El n (e2g deg) px py pz _ _ _ _ _ _ Ex' Ey' Ez')
    as (lat & lon & alt & -> & Elat' & Elon' & _).
  cbn [bind]. rewrite !Nat.max_id in Elat', Elon'.
  assert (Hfin : forall i,
    e2g deg (fst (fst (obs i)) + fd i * fst (fst (dir i)))%expr
      (snd (fst (obs i)) + fd i * snd (fst (dir i)))%expr
      (snd (obs i) + fd i * snd (dir i))%expr =
    (fst (fst (look_e D aer enu g2e e2g (item nan lat0 i) (item nan lon0 i) (item nan h0 i)
                 (item nan az i) (item nan tilt i) ell deg)),
     snd (fst (look_e D aer enu g2e e2g (item nan lat0 i) (item nan lon0 i) (item nan h0 i)
                 (item nan az i) (item nan tilt i) ell deg)),
     snd (e2g deg (fst (fst (obs i)) + fd i * fst (fst (dir i)))%expr
            (snd (fst (obs i)) + fd i * snd (fst (dir i)))%expr
            (snd (obs i) + fd i * snd (dir i))%expr))).
  { intros i. unfold look_e, finish_e, along. fold (fd i).
    change (direction_e aer enu _ _ _ _ _) with (dir i).
    change (observer_e g2e _ _ _ _) with (obs i).
    destruct (dir i) as [[? ?] ?], (obs i) as [[? ?] ?]. cbn [fst snd].
    destruct (e2g deg _ _ _) as [[? ?] ?]. reflexivity. }
  assert (Hd : forall i, fd i = snd (look_e D aer enu g2e e2g (item nan lat0 i) (item nan lon0 i)
                                       (item nan h0 i) (item nan az i) (item nan tilt i) ell deg)).
  { intros i. unfold look_e, finish_e. fold (fd i).
    destruct (direction_e _ _ _ _ _ _ _) as [[? ?] ?], (observer_e _ _ _ _ _) as [[? ?] ?].
    destruct (e2g deg _ _ _) as [[? ?] ?]. reflexivity. }
  apply squeeze_all_spec.
  - eapply El_cast; [exact Elat' | reflexivity |].
    intros i _; cbv beta. rewrite Hfin. reflexivity.
  - eapply El_cast; [exact Elon' | reflexivity |].
    intros i _; cbv beta. rewrite Hfin. reflexivity.
  - eapply El_cast; [exact Ed | reflexivity |]. intros i _. apply Hd.
Qed.
End Numpy.

(** ** The call without numpy *)

Lemma El_scalar_inv x c : El 1 x (fun _ => c) 0 -> x = Ok (Scalar c).
Proof.
  intros (v & -> & _ & Hr & Hi). destruct v as [y|ys].
  - specialize (Hi 0 ltac:(lia)). cbn in Hi. now subst.
  - cbn in Hr. destruct (length ys =? 1); discriminate.
Qed.

Lemma value_scalar a b c u v w x y z :
  value (Ok (Scalar a)) (Ok (Scalar b)) (Ok (Scalar c)) (Ok (Scalar u)) (Ok (Scalar v))
    (Ok (Scalar w)) (Ok (Scalar x)) (Ok (Scalar y)) (Ok (Scalar z)) =
  Ok (Scalar (value a b c u v w x y z)).
Proof.
  apply El_scalar_inv.
  eapply El_cast; [apply El_value; apply El_scalar | reflexivity | reflexivity].
Qed.

Lemma radical_scalar a b c u v w x y z :
  radical (Ok (Scalar a)) (Ok (Scalar b)) (Ok (Scalar c)) (Ok (Scalar u)) (Ok (Scalar v))
    (Ok (Scalar w)) (Ok (Scalar x)) (Ok (Scalar y)) (Ok (Scalar z)) =
  Ok (Scalar (radical a b c u v w x y z)).
Proof.
  apply El_scalar_inv.
  eapply El_cast; [apply El_radical; apply El_scalar | reflexivity | reflexivity].
Qed.

Lemma magnitude_scalar a b c u v w :
  magnitude (Ok (Scalar a)) (Ok (Scalar b)) (Ok (Scalar c)) (Ok (Scalar u)) (Ok (Scalar v))
    (Ok (Scalar w)) =
  Ok (Scalar (magnitude a b c u v w)).
Proof.
  apply El_scalar_inv.
  eapply El_cast; [apply El_magnitude; apply El_scalar | reflexivity | reflexivity].
Qed.

Lemma ltb_nan_l y : Float.ltb nan y = false.
Proof. reflexivity. Qed.

Lemma slant_range_math a b c val rad mag :
  slant_range MathOnly (Scalar a) (Scalar b) (Scalar c) (Scalar val) (Scalar rad) (Scalar mag) =
  if Float.ltb rad (fin 0) then Ok (Scalar nan)
  else if Float.is_zero mag then Raise ZeroDivisionError
  else Ok (Scalar (near_root Float.sqrt a b c val rad mag)).
Proof.
  unfold slant_range, try_body, near_root.
  cbn [psub pmul pdiv py_Arith ap2 ap1 bind sqrt math.sqrt lift2].
  destruct rad as [|r].
  - cbn [bind ap2 lift2 truediv Float.ltb].
    destruct (Float.is_zero mag); reflexivity.
  - cbn [Float.ltb]. destruct (Rlt_dec r 0) as [Hr|Hr].
    + cbn. destruct (Rlt_dec r 0); [reflexivity|contradiction].
    + cbn [bind ap2 lift2 truediv]. destruct (Float.is_zero mag); [reflexivity|].
      cbn. destruct (Rlt_dec r 0); [contradiction|]. reflexivity.
Qed.

Section Math.

Variable D : Ellipsoid.
Variable aer : bool -> pyfloat -> pyfloat -> pyfloat -> triple.
Variable enu : bool -> pyfloat -> pyfloat -> pyfloat -> pyfloat -> pyfloat -> triple.
Variable g2e : bool -> pyfloat -> pyfloat -> pyfloat -> triple.
Variable e2g : bool -> pyfloat -> pyfloat -> pyfloat -> triple.

Lemma lookAtSpheroid_math lat0 lon0 h0 az tilt ell deg :
  lookAtSpheroid D (elementwise3 aer) (elementwise5 enu) (elementwise3 g2e) (elementwise3 e2g)
    MathOnly (Scalar lat0) (Scalar lon0) (Scalar h0) (Scalar az) (Scalar tilt) ell deg =
  if Float.ltb h0 (fin 0) then Raise ValueError
  else scalars (look_math D aer enu g2e e2g lat0 lon0 h0 az tilt ell deg).
Proof.
  unfold lookAtSpheroid, altitude_is_negative, lt.
  cbn [lift2 bind truth].
  destruct (Float.ltb h0 (fin 0)); [reflexivity|].
  cbn [try_atleast_1d atleast_1d bind].
  assert (Hel : elevation (Scalar tilt) deg = Ok (Scalar (elevation_e tilt deg))).
  { apply El_scalar_inv.
    eapply El_cast; [apply (El_elevation 1 (Scalar tilt) deg I) | reflexivity | reflexivity]. }
  rewrite Hel. cbn [bind elementwise3 elementwise5 lift3 lift5 lift2 unzip3 nd_map fst snd].
  unfold look_math, near_root_e.
  unfold radical_e, magnitude_e, value_e, finish_e, axes, direction_e, observer_e.
  destruct (aer deg az (elevation_e tilt deg) (fin 1)) as [[e nn] u0]. cbn [fst snd].
  destruct (enu deg e nn u0 lat0 lon0) as [[u v] w].
  destruct (g2e deg lat0 lon0 h0) as [[x y] z]. cbn [fst snd].
  rewrite value_scalar, radical_scalar, magnitude_scalar. cbn [bind].
  rewrite slant_range_math. cbv beta iota zeta.
  set (a := semimajor_axis match ell with Some e0 => e0 | None => D end).
  set (c := semiminor_axis match ell with Some e0 => e0 | None => D end).
  destruct (Float.ltb (radical a a c u v w x y z) (fin 0)).
  - cbn [bind along padd pmul py_Arith float_Arith ap2 lift2 elementwise3 lift3 unzip3 nd_map fst snd scalars].
    destruct (e2g deg _ _ _) as [[lat lon] alt]. cbn [fst snd bind]. reflexivity.
  - destruct (Float.is_zero (magnitude a a c u v w)); [reflexivity|].
    cbn [bind along padd pmul py_Arith float_Arith ap2 lift2 elementwise3 lift3 unzip3 nd_map fst snd scalars].
    destruct (e2g deg _ _ _) as [[lat lon] alt]. cbn [fst snd bind]. reflexivity.
Qed.

End Math.

(** ** The quadratic of lines 89-105 over the reals *)

Section RealAlgebra.
Local Open Scope R_scope.

(** The discriminant identity behind lines 89-105. *)
Lemma radical_identity (a b c u v w x y z : R) :
  (a * b * c) ^ 2 * radical a b c u v w x y z =
  value a b c u v w x y z ^ 2
  - magnitude a b c u v w *
    (b ^ 2 * c ^ 2 * x ^ 2 + a ^ 2 * c ^ 2 * y ^ 2 + a ^ 2 * b ^ 2 * z ^ 2 - (a * b * c) ^ 2).
Proof. unfold radical, value, magnitude. cbn [padd psub pmul pneg plit R_Arith]. ring. Qed.

Lemma magnitude_nonneg (a b c u v w : R) : 0 <= magnitude a b c u v w.
Proof.
  unfold magnitude. cbn [padd pmul R_Arith].
  pose proof (pow2_ge_0 (a * b * w)). pose proof (pow2_ge_0 (a * c * v)).
  pose proof (pow2_ge_0 (b * c * u)). nra.
Qed.

Lemma pow2_pos (x : R) : x <> 0 -> 0 < x ^ 2.
Proof. intros Hx. destruct (Rtotal_order x 0) as [H|[H|H]]; [nra|contradiction|nra]. Qed.

Lemma magnitude_pos (a b c u v w : R) :
  0 < a -> 0 < b -> 0 < c -> (u <> 0 \/ v <> 0 \/ w <> 0) -> 0 < magnitude a b c u v w.
Proof.
  intros Ha Hb Hc Hd. unfold magnitude. cbn [padd pmul R_Arith].
  assert (Hab : 0 < a * b) by nra. assert (Hac : 0 < a * c) by nra. assert (Hbc : 0 < b * c) by nra.
  replace (a * a * (b * b) * (w * w) + a * a * (c * c) * (v * v) + b * b * (c * c) * (u * u))
    with ((a * b * w) ^ 2 + (a * c * v) ^ 2 + (b * c * u) ^ 2) by ring.
  pose proof (pow2_ge_0 (a * b * w)). pose proof (pow2_ge_0 (a * c * v)).
  pose proof (pow2_ge_0 (b * c * u)).
  destruct Hd as [Hn|[Hn|Hn]].
  - assert (0 < (b * c * u) ^ 2) by (apply pow2_pos; nra). lra.
  - assert (0 < (a * c * v) ^ 2) by (apply pow2_pos; nra). lra.
  - assert (0 < (a * b * w) ^ 2) by (apply pow2_pos; nra). lra.
Qed.

Lemma near_root_on_ellipsoid (a b c u v w x y z : R) :
  a <> 0 -> b <> 0 -> c <> 0 ->
  magnitude a b c u v w <> 0 ->
  0 <= radical a b c u v w x y z ->
  let d := near_root R_sqrt.sqrt a b c (value a b c u v w x y z) (radical a b c u v w x y z)
             (magnitude a b c u v w) in
  on_ellipsoid a b c (x + d * u) (y + d * v) (z + d * w).
Proof.
  intros Ha Hb Hc Hm Hr d.
  pose proof (radical_identity a b c u v w x y z) as Hid.
  pose proof (sqrt_sqrt _ Hr) as Hs.
  set (s := R_sqrt.sqrt (radical a b c u v w x y z)) in *.
  set (rad := radical a b c u v w x y z) in *.
  assert (Hd : magnitude a b c u v w * d = value a b c u v w x y z - a * b * c * s).
  { unfold d, near_root. cbn [psub pmul pdiv R_Arith]. fold s. field. exact Hm. }
  set (m := magnitude a b c u v w) in *.
  set (val := value a b c u v w x y z) in *.
  assert (Hq : m * (m * d ^ 2 - 2 * val * d
                    + (b ^ 2 * c ^ 2 * x ^ 2 + a ^ 2 * c ^ 2 * y ^ 2 + a ^ 2 * b ^ 2 * z ^ 2
                       - (a * b * c) ^ 2)) = 0).
  { replace (m * (m * d ^ 2 - 2 * val * d
                    + (b ^ 2 * c ^ 2 * x ^ 2 + a ^ 2 * c ^ 2 * y ^ 2 + a ^ 2 * b ^ 2 * z ^ 2
                       - (a * b * c) ^ 2)))
      with ((m * d) ^ 2 - 2 * val * (m * d)
            + m * (b ^ 2 * c ^ 2 * x ^ 2 + a ^ 2 * c ^ 2 * y ^ 2 + a ^ 2 * b ^ 2 * z ^ 2
                   - (a * b * c) ^ 2)) by ring.
    rewrite Hd.
    replace ((val - a * b * c * s) ^ 2) with (val ^ 2 - 2 * val * (a * b * c * s) + (a * b * c) ^ 2 * (s * s)) by ring.
    rewrite Hs. nra. }
  apply Rmult_integral in Hq. destruct Hq as [Hq|Hq]; [contradiction|].
  assert (Hval : val = - (a ^ 2 * b ^ 2 * w * z + a ^ 2 * c ^ 2 * v * y + b ^ 2 * c ^ 2 * u * x)).
  { unfold val, value. cbn [psub pmul pneg R_Arith]. ring. }
  assert (Hmm : m = a ^ 2 * b ^ 2 * w ^ 2 + a ^ 2 * c ^ 2 * v ^ 2 + b ^ 2 * c ^ 2 * u ^ 2).
  { unfold m, magnitude. cbn [padd pmul R_Arith]. ring. }
  unfold on_ellipsoid.
  assert (Hgoal : b ^ 2 * c ^ 2 * (x + d * u) ^ 2 + a ^ 2 * c ^ 2 * (y + d * v) ^ 2
                  + a ^ 2 * b ^ 2 * (z + d * w) ^ 2 = (a * b * c) ^ 2).
  { rewrite Hval, Hmm in Hq. nra. }
  apply (Rmult_eq_reg_l ((a * b * c) ^ 2)).
  - rewrite Rmult_1_r. etransitivity; [|exact Hgoal].
    generalize (x + d * u) (y + d * v) (z + d * w). intros X Y Z. field. auto.
  - apply pow_nonzero. repeat apply Rmult_integral_contrapositive_currified; assumption.
Qed.

End RealAlgebra.

(** ** Both runtimes, one element at a time *)

Lemma item_squeezed n f i : i < n -> item nan (squeezed n f) i = f i.
Proof.
  intros Hi. unfold squeezed. destruct (Nat.eqb_spec n 1) as [->|Hn].
  - replace i with 0 by lia. reflexivity.
  - rewrite item_Array_many by (rewrite length_map, length_seq; exact Hn).
    rewrite (nth_map_in _ _ f 0 nan) by (rewrite length_seq; exact Hi).
    now rewrite seq_nth.
Qed.

Lemma shape_squeezed n f : shape_of (squeezed n f) = if n =? 1 then None else Some n.
Proof.
  unfold squeezed. destruct (n =? 1); cbn; [reflexivity|].
  now rewrite length_map, length_seq.
Qed.

Lemma altitude_scalar h : altitude_is_negative (Scalar h) = Ok (Float.ltb h (fin 0)).
Proof. reflexivity. Qed.

Section Items.

Variable D : Ellipsoid.
Variable aer : bool -> pyfloat -> pyfloat -> pyfloat -> triple.
Variable enu : bool -> pyfloat -> pyfloat -> pyfloat -> pyfloat -> pyfloat -> triple.
Variable g2e : bool -> pyfloat -> pyfloat -> pyfloat -> triple.
Variable e2g : bool -> pyfloat -> pyfloat -> pyfloat -> triple.

(** Element [i] of what a call returns is what the call computes on
    element [i] of its inputs. *)
Lemma lookAtSpheroid_items rt lat0 lon0 h0 az tilt ell deg n lat lon d i :
  admissible rt [lat0; lon0; h0; az; tilt] n ->
  altitude_is_negative h0 = Ok false ->
  lookAtSpheroid D (elementwise3 aer) (elementwise5 enu) (elementwise3 g2e) (elementwise3 e2g)
    rt lat0 lon0 h0 az tilt ell deg = Ok (lat, lon, d) ->
  i < n ->
  look_item D aer enu g2e e2g rt (item nan lat0 i) (item nan lon0 i) (item nan h0 i)
    (item nan az i) (item nan tilt i) ell deg =
  Ok (item nan lat i, item nan lon i, item nan d i).
Proof.
  intros Hadm HG Hlook Hi. destruct rt; cbn [admissible look_item] in *.
  - rewrite (lookAtSpheroid_numpy D aer enu g2e e2g _ _ _ _ _ _ _ n Hadm HG) in Hlook.
    injection Hlook as <- <- <-. rewrite !item_squeezed by exact Hi.
    destruct (look_e _ _ _ _ _ _ _ _ _ _ _ _) as [[? ?] ?]. reflexivity.
  - destruct Hadm as (Hs & ->).
    inversion_clear Hs as [|? ? S1 Hs1]. inversion_clear Hs1 as [|? ? S2 Hs2].
    inversion_clear Hs2 as [|? ? S3 Hs3]. inversion_clear Hs3 as [|? ? S4 Hs4].
    inversion_clear Hs4 as [|? ? S5 _].
    destruct lat0 as [lat0|]; [|contradiction]. destruct lon0 as [lon0|]; [|contradiction].
    destruct h0 as [h0|]; [|contradiction]. destruct az as [az|]; [|contradiction].
    destruct tilt as [tilt|]; [|contradiction].
    rewrite lookAtSpheroid_math in Hlook. rewrite altitude_scalar in HG.
    injection HG as HG. rewrite HG in Hlook. cbn [item].
    destruct (look_math _ _ _ _ _ _ _ _ _ _ _ _) as [[[a b] c]|e]; [|discriminate].
    cbn [scalars] in Hlook. injection Hlook as <- <- <-. reflexivity.
Qed.

(** With numpy a call that passes the altitude test returns. *)
Lemma lookAtSpheroid_numpy_returns lat0 lon0 h0 az tilt ell deg n :
  admissible WithNumpy [lat0; lon0; h0; az; tilt] n ->
  altitude_is_negative h0 = Ok false ->
  exists lat lon d,
    lookAtSpheroid D (elementwise3 aer) (elementwise5 enu) (elementwise3 g2e) (elementwise3 e2g)
      WithNumpy lat0 lon0 h0 az tilt ell deg = Ok (lat, lon, d).
Proof.
  intros Hadm HG. do 3 eexists. exact (lookAtSpheroid_numpy D aer enu g2e e2g _ _ _ _ _ _ _ n Hadm HG).
Qed.

End Items.

(** ** Floats *)

Lemma add_nan_r x : Float.add x nan = nan.
Proof. now destruct x. Qed.

Lemma sub_nan_r x : Float.sub x nan = nan.
Proof. now destruct x. Qed.

Lemma mul_nan_r x : Float.mul x nan = nan.
Proof. now destruct x. Qed.

Lemma ltb_true x y : Float.ltb (fin x) (fin y) = true <-> (x < y)%R.
Proof. cbn. destruct (Rlt_dec x y); split; auto; discriminate. Qed.

Lemma ltb_false x y : Float.ltb (fin x) (fin y) = false <-> (y <= x)%R.
Proof. cbn. destruct (Rlt_dec x y); split; intros; try discriminate; try lra; auto. Qed.

Lemma is_zero_false x : Float.is_zero (fin x) = false <-> x <> 0%R.
Proof. cbn. destruct (Req_dec_T x 0); split; intros; try discriminate; auto; contradiction. Qed.

Lemma masked_nan rad : masked rad nan = nan.
Proof. unfold masked. destruct (Float.ltb rad (fin 0)); reflexivity. Qed.

Lemma masked_negative rad d : Float.ltb rad (fin 0) = true -> masked rad d = nan.
Proof. unfold masked. intros ->. reflexivity. Qed.

(** What lines 110-111 leave is the sentinel or a number that is not
    negative. *)
Lemma masked_cases rad d :
  masked rad d = nan \/
  (masked rad d = d /\ Float.ltb rad (fin 0) = false /\ Float.nonneg d).
Proof.
  unfold masked. destruct (Float.ltb rad (fin 0)) eqn:Er; [now left|].
  destruct (Float.ltb d (fin 0)) eqn:Ed; [now left|].
  destruct d as [|r]; [now left|]. right. repeat split.
  now apply ltb_false in Ed.
Qed.

Lemma value_nan a b c u v w : value a b c u v w nan nan nan = nan.
Proof.
  unfold value. cbn [psub pmul pneg float_Arith]. now rewrite !mul_nan_r.
Qed.

Lemma near_root_nan a b c rad mag : near_root Float.sqrt a b c nan rad mag = nan.
Proof. reflexivity. Qed.

(** A finite near root: every operand is a number, the radical is not
    negative, the divisor is not zero. *)
Lemma near_root_fin a b c u v w x y z r :
  near_root Float.sqrt a b c (value a b c u v w x y z) (radical a b c u v w x y z)
    (magnitude a b c u v w) = fin r ->
  exists a' b' c' u' v' w' x' y' z',
    a = fin a' /\ b = fin b' /\ c = fin c' /\ u = fin u' /\ v = fin v' /\ w = fin w' /\
    x = fin x' /\ y = fin y' /\ z = fin z' /\
    (0 <= radical a' b' c' u' v' w' x' y' z')%R /\
    magnitude a' b' c' u' v' w' <> 0%R /\
    r = near_root R_sqrt.sqrt a' b' c' (value a' b' c' u' v' w' x' y' z')
          (radical a' b' c' u' v' w' x' y' z') (magnitude a' b' c' u' v' w').
Proof.
  intros H.
  destruct a as [|a'], b as [|b'], c as [|c'], u as [|u'], v as [|v'], w as [|w'],
           x as [|x'], y as [|y'], z as [|z'];
    try (exfalso; vm_compute in H; discriminate H).
  exists a', b', c', u', v', w', x', y', z'. repeat (split; [reflexivity|]).
  change (value (fin a') (fin b') (fin c') (fin u') (fin v') (fin w') (fin x') (fin y') (fin z'))
    with (fin (value a' b' c' u' v' w' x' y' z')) in H.
  change (radical (fin a') (fin b') (fin c') (fin u') (fin v') (fin w') (fin x') (fin y') (fin z'))
    with (fin (radical a' b' c' u' v' w' x' y' z')) in H.
  change (magnitude (fin a') (fin b') (fin c') (fin u') (fin v') (fin w'))
    with (fin (magnitude a' b' c' u' v' w')) in H.
  unfold near_root in H. cbn [psub pmul pdiv float_Arith Float.sqrt] in H.
  destruct (Rlt_dec (radical a' b' c' u' v' w' x' y' z') 0) as [Hr|Hr]; [discriminate H|].
  cbn [Float.mul Float.sub Float.lift2 Float.div] in H.
  destruct (Req_dec_T (magnitude a' b' c' u' v' w') 0) as [Hm|Hm]; [discriminate H|].
  injection H as <-. repeat split; [lra|exact Hm].
Qed.

(** ** The two roots *)

Lemma near_le_far (a b c val rad mag : R) :
  (0 <= a * b * c)%R -> (0 <= rad)%R -> (0 < mag)%R ->
  (near_root R_sqrt.sqrt a b c val rad mag <= far_root R_sqrt.sqrt a b c val rad mag)%R.
Proof.
  intros Habc Hrad Hmag. unfold near_root, far_root. cbn [padd psub pmul pdiv R_Arith].
  pose proof (sqrt_pos rad) as Hs.
  apply Rmult_le_compat_r; [left; now apply Rinv_0_lt_compat|].
  assert (0 <= a * b * c * R_sqrt.sqrt rad)%R by (apply Rmult_le_pos; assumption). lra.
Qed.

Lemma near_root_of_fin a b c val rad mag :
  (0 <= rad)%R -> mag <> 0%R ->
  near_root Float.sqrt (fin a) (fin b) (fin c) (fin val) (fin rad) (fin mag) =
  fin (near_root R_sqrt.sqrt a b c val rad mag).
Proof.
  intros Hr Hm. unfold near_root. cbn [psub pmul pdiv float_Arith R_Arith Float.sqrt].
  destruct (Rlt_dec rad 0); [lra|]. cbn [Float.mul Float.sub Float.lift2 Float.div].
  destruct (Req_dec_T mag 0); [contradiction|]. reflexivity.
Qed.

Lemma far_root_of_fin a b c val rad mag :
  (0 <= rad)%R -> mag <> 0%R ->
  far_root Float.sqrt (fin a) (fin b) (fin c) (fin val) (fin rad) (fin mag) =
  fin (far_root R_sqrt.sqrt a b c val rad mag).
Proof.
  intros Hr Hm. unfold far_root. cbn [padd pmul pdiv float_Arith R_Arith Float.sqrt].
  destruct (Rlt_dec rad 0); [lra|]. cbn [Float.mul Float.add Float.lift2 Float.div].
  destruct (Req_dec_T mag 0); [contradiction|]. reflexivity.
Qed.

Section OneElementFacts.

Variable D : Ellipsoid.
Variable aer : bool -> pyfloat -> pyfloat -> pyfloat -> triple.
Variable enu : bool -> pyfloat -> pyfloat -> pyfloat -> pyfloat -> pyfloat -> triple.
Variable g2e : bool -> pyfloat -> pyfloat -> pyfloat -> triple.
Variable e2g : bool -> pyfloat -> pyfloat -> pyfloat -> triple.

Lemma finish_e_range lat0 lon0 h0 az tilt deg d :
  snd (finish_e aer enu g2e e2g lat0 lon0 h0 az tilt deg d) = d.
Proof.
  unfold finish_e.
  destruct (direction_e _ _ _ _ _ _ _) as [[? ?] ?], (observer_e _ _ _ _ _) as [[? ?] ?].
  destruct (e2g deg _ _ _) as [[? ?] ?]. reflexivity.
Qed.

Lemma finish_e_nan lat0 lon0 h0 az tilt deg :
  fst (fst (e2g deg nan nan nan)) = nan -> snd (fst (e2g deg nan nan nan)) = nan ->
  finish_e aer enu g2e e2g lat0 lon0 h0 az tilt deg nan = (nan, nan, nan).
Proof.
  intros H1 H2. unfold finish_e, along. cbn [padd pmul float_Arith].
  destruct (direction_e _ _ _ _ _ _ _) as [[u v] w], (observer_e _ _ _ _ _) as [[x y] z].
  cbn [Float.mul Float.lift2]. rewrite !add_nan_r.
  destruct (e2g deg nan nan nan) as [[lat lon] alt]. cbn in H1, H2. now subst.
Qed.

(** The slant range of one element is the sentinel or the near root. *)
Lemma look_item_range rt lat0 lon0 h0 az tilt ell deg la lo dd :
  look_item D aer enu g2e e2g rt lat0 lon0 h0 az tilt ell deg = Ok (la, lo, dd) ->
  dd = nan \/
  (dd = near_root_e D aer enu g2e lat0 lon0 h0 az tilt ell deg /\
   Float.ltb (radical_e D aer enu g2e lat0 lon0 h0 az tilt ell deg) (fin 0) = false /\
   (rt = WithNumpy -> Float.nonneg dd)).
Proof.
  destruct rt; cbn [look_item].
  - unfold look_e. intros H. injection H as H.
    pose proof (finish_e_range lat0 lon0 h0 az tilt deg
                  (masked (radical_e D aer enu g2e lat0 lon0 h0 az tilt ell deg)
                     (near_root_e D aer enu g2e lat0 lon0 h0 az tilt ell deg))) as Hd.
    rewrite H in Hd. cbn [snd] in Hd. subst dd.
    destruct (masked_cases (radical_e D aer enu g2e lat0 lon0 h0 az tilt ell deg)
                (near_root_e D aer enu g2e lat0 lon0 h0 az tilt ell deg))
      as [E|(E & Hr & Hn)]; [now left|right].
    rewrite E. auto.
  - unfold look_math.
    destruct (Float.ltb (radical_e D aer enu g2e lat0 lon0 h0 az tilt ell deg) (fin 0)) eqn:Er.
    + intros H. injection H as H.
      pose proof (finish_e_range lat0 lon0 h0 az tilt deg nan) as Hd.
      rewrite H in Hd. left. now cbn in Hd.
    + destruct (Float.is_zero _); [discriminate|]. intros H. injection H as H.
      pose proof (finish_e_range lat0 lon0 h0 az tilt deg
                    (near_root_e D aer enu g2e lat0 lon0 h0 az tilt ell deg)) as Hd.
      rewrite H in Hd. cbn [snd] in Hd. right. repeat split; auto. discriminate.
Qed.

(** A finite near root, read in the reals. *)
Lemma near_root_e_fin lat0 lon0 h0 az tilt ell deg r :
  near_root_e D aer enu g2e lat0 lon0 h0 az tilt ell deg = fin r ->
  exists a c u v w x y z,
    semimajor_axis (ellipsoid_of D ell) = fin a /\
    semiminor_axis (ellipsoid_of D ell) = fin c /\
    direction_e aer enu lat0 lon0 az tilt deg = (fin u, fin v, fin w) /\
    observer_e g2e lat0 lon0 h0 deg = (fin x, fin y, fin z) /\
    (0 <= radical a a c u v w x y z)%R /\
    magnitude a a c u v w <> 0%R /\
    radical_e D aer enu g2e lat0 lon0 h0 az tilt ell deg = fin (radical a a c u v w x y z) /\
    r = near_root R_sqrt.sqrt a a c (value a a c u v w x y z) (radical a a c u v w x y z)
          (magnitude a a c u v w) /\
    far_root_e D aer enu g2e lat0 lon0 h0 az tilt ell deg =
    fin (far_root R_sqrt.sqrt a a c (value a a c u v w x y z) (radical a a c u v w x y z)
           (magnitude a a c u v w)).
Proof.
  unfold near_root_e, far_root_e, radical_e, value_e, magnitude_e, axes.
  fold (ellipsoid_of D ell).
  destruct (direction_e aer enu lat0 lon0 az tilt deg) as [[u v] w].
  destruct (observer_e g2e lat0 lon0 h0 deg) as [[x y] z].
  intros H. apply near_root_fin in H.
  destruct H as (a' & b' & c' & u' & v' & w' & x' & y' & z' & Ea & Eb & Ec & -> & -> & ->
                 & -> & -> & -> & Hr & Hm & ->).
  rewrite Ea in Eb. injection Eb as <-.
  exists a', c', u', v', w', x', y', z'. rewrite Ea, Ec.
  do 4 (split; [reflexivity|]). split; [exact Hr|]. split; [exact Hm|].
  do 2 (split; [reflexivity|]).
  change (value (fin a') (fin a') (fin c') (fin u') (fin v') (fin w') (fin x') (fin y') (fin z'))
    with (fin (value a' a' c' u' v' w' x' y' z')).
  change (radical (fin a') (fin a') (fin c') (fin u') (fin v') (fin w') (fin x') (fin y') (fin z'))
    with (fin (radical a' a' c' u' v' w' x' y' z')).
  change (magnitude (fin a') (fin a') (fin c') (fin u') (fin v') (fin w'))
    with (fin (magnitude a' a' c' u' v' w')).
  now apply far_root_of_fin.
Qed.

End OneElementFacts.

(** ** Angle units *)

Lemma radians_elevation x :
  radians (Float.sub x (fin 90)) = Float.sub (radians x) (Float.div (fin PI) (fin 2)).
Proof.
  unfold radians. cbn [Float.div]. destruct (Req_dec_T 2 0); [lra|].
  destruct x as [|x]; [reflexivity|]. cbn. f_equal. field.
Qed.

Lemma atleast_1d_map f v : np.atleast_1d (nd_map f v) = nd_map f (np.atleast_1d v).
Proof. now destruct v. Qed.

Lemma try_atleast_1d_map f rt lat0 lon0 tilt :
  try_atleast_1d rt (nd_map f lat0) (nd_map f lon0) (nd_map f tilt) =
  '(a, b, c) <- try_atleast_1d rt lat0 lon0 tilt ;; Ok (nd_map f a, nd_map f b, nd_map f c).
Proof. destruct rt; cbn; [now rewrite !atleast_1d_map | reflexivity]. Qed.

Lemma try_atleast_1d_returns rt lat0 lon0 tilt :
  exists a b c, try_atleast_1d rt lat0 lon0 tilt = Ok (a, b, c).
Proof. destruct rt; cbn; eauto. Qed.

Lemma elevation_units t :
  exists e, elevation t true = Ok e /\ elevation (vradians t) false = Ok (vradians e).
Proof.
  unfold elevation, vradians. cbn [psub pdiv plit py_Arith ap2 bind pi truediv].
  rewrite is_zero_two. destruct t as [x|xs]; cbn [lift2 nd_map bind].
  - eexists; split; [reflexivity|]. cbn [nd_map]. now rewrite radians_elevation.
  - eexists; split; [reflexivity|]. cbn [nd_map]. rewrite !map_map.
    apply (f_equal (fun l : list pyfloat => Ok (Array l))).
    apply map_ext. intros x. now rewrite radians_elevation.
Qed.

Lemma squeeze_map f v : squeeze (nd_map f v) = x <- squeeze v ;; Ok (nd_map f x).
Proof. destruct v as [x|[|x [|y xs]]]; reflexivity. Qed.

Lemma squeeze_all_degrees lat lon d :
  squeeze_all (vdegrees lat) (vdegrees lon) d = in_degrees (squeeze_all lat lon d).
Proof.
  unfold squeeze_all, vdegrees, in_degrees. rewrite !squeeze_map.
  destruct (squeeze lat) as [lat'|[]]; cbn [bind]; try reflexivity.
  destruct (squeeze lon) as [lon'|[]]; cbn [bind]; try reflexivity.
  destruct (squeeze d) as [d'|[]]; cbn [bind]; reflexivity.
Qed.

Section AnyCollaborators.

Variable Ellipsoid_default : Ellipsoid.
Variable aer2enu : pyval -> pyval -> pyval -> bool -> py3.
Variable enu2uvw : pyval -> pyval -> pyval -> pyval -> pyval -> bool -> py3.
Variable geodetic2ecef : pyval -> pyval -> pyval -> bool -> py3.
Variable ecef2geodetic : pyval -> pyval -> pyval -> bool -> py3.

(** C4.  A scalar altitude below zero makes the call fail with the
    invalid-altitude error ([ValueError]), whatever the other arguments,
    the ellipsoid, the unit flag and the runtime are; and whatever the
    collaborators would do, even raise, so no collaborator is reached
    before the error. *)
Theorem negative_altitude_raises rt lat0 lon0 az tilt ell deg (h : R) :
  (h < 0)%R ->
  lookAtSpheroid Ellipsoid_default aer2enu enu2uvw geodetic2ecef ecef2geodetic
    rt lat0 lon0 (Scalar (fin h)) az tilt ell deg = Raise ValueError.
Proof.
  intros Hh. unfold lookAtSpheroid. rewrite altitude_scalar.
  apply ltb_true in Hh. rewrite Hh. reflexivity.
Qed.

(** C10.  An altitude that is an array of two or more elements makes the
    test [if h0 < 0] raise ([ValueError]: the truth value of an array is
    ambiguous), whatever the elements are. *)
Theorem array_altitude_raises lat0 lon0 az tilt ell deg (hs : list pyfloat) :
  2 <= length hs ->
  lookAtSpheroid Ellipsoid_default aer2enu enu2uvw geodetic2ecef ecef2geodetic
    WithNumpy lat0 lon0 (Array hs) az tilt ell deg = Raise ValueError.
Proof.
  intros Hlen. unfold lookAtSpheroid, altitude_is_negative, lt. cbn [lift2 bind].
  destruct hs as [|h1 [|h2 hs]]; cbn in Hlen; try lia. reflexivity.
Qed.

(** C7.  When every collaborator treats degrees as the radians they
    convert to (and [ecef2geodetic] returns in degrees what it returns in
    radians), a call in degrees returns what the call on the
    radian-converted angles returns, latitude and longitude read in
    degrees and the slant range unchanged; in exact arithmetic the two
    agree exactly, and they raise alike. *)
Theorem degrees_and_radians_agree rt lat0 lon0 h0 az tilt ell :
  (forall az el r, aer2enu az el r true = aer2enu (vradians az) (vradians el) r false) ->
  (forall e n u lat lon,
      enu2uvw e n u lat lon true = enu2uvw e n u (vradians lat) (vradians lon) false) ->
  (forall lat lon h,
      geodetic2ecef lat lon h true = geodetic2ecef (vradians lat) (vradians lon) h false) ->
  (forall x y z, ecef2geodetic x y z true = in_degrees (ecef2geodetic x y z false)) ->
  lookAtSpheroid Ellipsoid_default aer2enu enu2uvw geodetic2ecef ecef2geodetic
    rt lat0 lon0 h0 az tilt ell true =
  in_degrees
    (lookAtSpheroid Ellipsoid_default aer2enu enu2uvw geodetic2ecef ecef2geodetic
       rt (vradians lat0) (vradians lon0) h0 (vradians az) (vradians tilt) ell false).
Proof.
  intros Haer Henu Hg2e He2g. unfold vradians in *. unfold lookAtSpheroid.
  destruct (altitude_is_negative h0) as [[|]|e]; cbn [bind]; try reflexivity.
  rewrite try_atleast_1d_map.
  destruct (try_atleast_1d_returns rt lat0 lon0 tilt) as (lat0' & lon0' & tilt' & ->).
  cbn [bind].
  destruct (elevation_units tilt') as (el & E1 & E2). unfold vradians in E2.
  rewrite E1, E2. cbn [bind]. rewrite Haer.
  destruct (aer2enu (nd_map radians az) (nd_map radians el) (Scalar (fin 1)) false)
    as [[[e n] u0]|ex]; cbn [bind]; [|reflexivity].
  rewrite Henu.
  destruct (enu2uvw e n u0 (nd_map radians lat0') (nd_map radians lon0') false)
    as [[[u v] w]|ex]; cbn [bind]; [|reflexivity].
  rewrite Hg2e.
  destruct (geodetic2ecef (nd_map radians lat0') (nd_map radians lon0') h0 false)
    as [[[x y] z]|ex]; cbn [bind]; [|reflexivity].
  destruct (value _ _ _ _ _ _ _ _ _) as [val|ex]; cbn [bind]; [|reflexivity].
  destruct (radical _ _ _ _ _ _ _ _ _) as [rad|ex]; cbn [bind]; [|reflexivity].
  destruct (magnitude _ _ _ _ _ _) as [mag|ex]; cbn [bind]; [|reflexivity].
  destruct (slant_range _ _ _ _ _ _ _) as [d|ex]; cbn [bind]; [|reflexivity].
  destruct (along (Ok x) (Ok d) (Ok u)) as [px|ex]; cbn [bind]; [|reflexivity].
  destruct (along (Ok y) (Ok d) (Ok v)) as [py|ex]; cbn [bind]; [|reflexivity].
  destruct (along (Ok z) (Ok d) (Ok w)) as [pz|ex]; cbn [bind]; [|reflexivity].
  rewrite He2g. unfold in_degrees at 1.
  destruct (ecef2geodetic px py pz false) as [[[lat lon] alt]|ex]; cbn [bind]; [|reflexivity].
  apply squeeze_all_degrees.
Qed.

End AnyCollaborators.

(** C8.  For positive semi-axes and a direction that is not the zero
    vector, the divisor of line 105 is positive; so it is not zero and the
    division of line 109 has a divisor that is a number other than zero. *)
Theorem magnitude_positive (a b c u v w : R) :
  (0 < a)%R -> (0 < b)%R -> (0 < c)%R -> (u <> 0 \/ v <> 0 \/ w <> 0)%R ->
  (0 < magnitude a b c u v w)%R /\
  magnitude (fin a) (fin b) (fin c) (fin u) (fin v) (fin w) = fin (magnitude a b c u v w) /\
  Float.is_zero (magnitude (fin a) (fin b) (fin c) (fin u) (fin v) (fin w)) = false.
Proof.
  intros Ha Hb Hc Hd. pose proof (magnitude_pos a b c u v w Ha Hb Hc Hd) as Hm.
  split; [exact Hm|]. split; [reflexivity|].
  change (magnitude (fin a) (fin b) (fin c) (fin u) (fin v) (fin w))
    with (fin (magnitude a b c u v w)).
  apply is_zero_false. lra.
Qed.

(** ** Elementwise collaborators *)

Lemma admissible_math a b c d e n :
  admissible MathOnly [a; b; c; d; e] n ->
  exists a' b' c' d' e',
    a = Scalar a' /\ b = Scalar b' /\ c = Scalar c' /\ d = Scalar d' /\ e = Scalar e' /\ n = 1.
Proof.
  intros (Hs & ->).
  inversion_clear Hs as [|? ? S1 Hs1]. inversion_clear Hs1 as [|? ? S2 Hs2].
  inversion_clear Hs2 as [|? ? S3 Hs3]. inversion_clear Hs3 as [|? ? S4 Hs4].
  inversion_clear Hs4 as [|? ? S5 _].
  destruct a; [|contradiction]. destruct b; [|contradiction]. destruct c; [|contradiction].
  destruct d; [|contradiction]. destruct e; [|contradiction]. repeat eexists.
Qed.

Section Elementwise.

Variable D : Ellipsoid.
Variable aer : bool -> pyfloat -> pyfloat -> pyfloat -> triple.
Variable enu : bool -> pyfloat -> pyfloat -> pyfloat -> pyfloat -> pyfloat -> triple.
Variable g2e : bool -> pyfloat -> pyfloat -> pyfloat -> triple.
Variable e2g : bool -> pyfloat -> pyfloat -> pyfloat -> triple.

(** C1.  Collaborators work element by element and [ecef2geodetic]
    gives not-a-number latitude and longitude for a not-a-number point.
    Then on every element whose discriminant (lines 90-103) is negative
    the call raises nothing and returns the sentinel in all three
    outputs; in a batch this holds element by element. *)
Theorem negative_radical_gives_nan rt lat0 lon0 h0 az tilt ell deg n i :
  fst (fst (e2g deg nan nan nan)) = nan ->
  snd (fst (e2g deg nan nan nan)) = nan ->
  admissible rt [lat0; lon0; h0; az; tilt] n ->
  altitude_is_negative h0 = Ok false ->
  i < n ->
  Float.ltb (radical_e D aer enu g2e (item nan lat0 i) (item nan lon0 i) (item nan h0 i)
               (item nan az i) (item nan tilt i) ell deg) (fin 0) = true ->
  exists lat lon d,
    lookAtSpheroid D (elementwise3 aer) (elementwise5 enu) (elementwise3 g2e) (elementwise3 e2g)
      rt lat0 lon0 h0 az tilt ell deg = Ok (lat, lon, d) /\
    item nan lat i = nan /\ item nan lon i = nan /\ item nan d i = nan.
Proof.
  intros H1 H2 Hadm HG Hi Hrad. destruct rt.
  - rewrite (lookAtSpheroid_numpy D aer enu g2e e2g _ _ _ _ _ _ _ n Hadm HG).
    do 3 eexists. split; [reflexivity|]. rewrite !item_squeezed by exact Hi.
    unfold look_e. rewrite (masked_negative _ _ Hrad), finish_e_nan by assumption.
    auto.
  - destruct (admissible_math _ _ _ _ _ _ Hadm) as (a & b & c & d & e & -> & -> & -> & -> & -> & ->).
    rewrite lookAtSpheroid_math. rewrite altitude_scalar in HG. injection HG as ->.
    cbn [item] in Hrad. unfold look_math. rewrite Hrad, finish_e_nan by assumption.
    do 3 eexists. split; [reflexivity|]. auto.
Qed.

(** C3.  On an ellipsoid that satisfies the data model's invariant, a
    returned slant range that is not the sentinel is the near root
    [(value - a*b*c*sqrt(radical)) / magnitude] of that element, the
    radical is not negative there, and the near root is at most the other
    root [(value + a*b*c*sqrt(radical)) / magnitude]. *)
Theorem returned_range_is_near_root rt lat0 lon0 h0 az tilt ell deg n lat lon d i :
  valid_ellipsoid (ellipsoid_of D ell) ->
  admissible rt [lat0; lon0; h0; az; tilt] n ->
  altitude_is_negative h0 = Ok false ->
  lookAtSpheroid D (elementwise3 aer) (elementwise5 enu) (elementwise3 g2e) (elementwise3 e2g)
    rt lat0 lon0 h0 az tilt ell deg = Ok (lat, lon, d) ->
  i < n ->
  Float.is_nan (item nan d i) = false ->
  item nan d i = near_root_e D aer enu g2e (item nan lat0 i) (item nan lon0 i) (item nan h0 i)
                   (item nan az i) (item nan tilt i) ell deg /\
  Float.nonneg (radical_e D aer enu g2e (item nan lat0 i) (item nan lon0 i) (item nan h0 i)
                  (item nan az i) (item nan tilt i) ell deg) /\
  Float.le (near_root_e D aer enu g2e (item nan lat0 i) (item nan lon0 i) (item nan h0 i)
              (item nan az i) (item nan tilt i) ell deg)
           (far_root_e D aer enu g2e (item nan lat0 i) (item nan lon0 i) (item nan h0 i)
              (item nan az i) (item nan tilt i) ell deg).
Proof.
  intros Hell Hadm HG Hlook Hi Hnan.
  pose proof (lookAtSpheroid_items D aer enu g2e e2g _ _ _ _ _ _ _ _ _ _ _ _ _ Hadm HG Hlook Hi)
    as Hitem.
  apply look_item_range in Hitem. destruct Hitem as [E|(E & _ & _)];
    [rewrite E in Hnan; discriminate|].
  split; [exact E|]. rewrite E in Hnan.
  destruct (near_root_e D aer enu g2e _ _ _ _ _ ell deg) as [|r] eqn:Er; [discriminate|].
  destruct (near_root_e_fin D aer enu g2e _ _ _ _ _ _ _ _ Er)
    as (a & c & u & v & w & x & y & z & Ea & Ec & _ & _ & Hr & Hm & Erad & -> & Efar).
  rewrite Erad, Efar. cbn [Float.nonneg Float.le]. split; [exact Hr|].
  unfold valid_ellipsoid in Hell. rewrite Ea, Ec in Hell.
  pose proof (magnitude_nonneg a a c u v w).
  apply near_le_far; [|exact Hr|lra].
  assert (0 <= a * a)%R by nra. nra.
Qed.

(** C5, as amended.  With numpy, for an altitude that passes the test of
    line 66 and inputs (scalars or one-dimensional arrays) that
    broadcast to [n] elements, the call returns three outputs of one
    shape: scalars when [n = 1], arrays of length [n] otherwise; and
    element [i] of the outputs is what the lines of the function compute
    from element [i] of each broadcast input, and from nothing else. *)
Theorem output_shape_and_elements lat0 lon0 h0 az tilt ell deg n :
  broadcast_length [lat0; lon0; h0; az; tilt] = Some n ->
  altitude_is_negative h0 = Ok false ->
  exists lat lon d,
    lookAtSpheroid D (elementwise3 aer) (elementwise5 enu) (elementwise3 g2e) (elementwise3 e2g)
      WithNumpy lat0 lon0 h0 az tilt ell deg = Ok (lat, lon, d) /\
    shape_of lat = (if n =? 1 then None else Some n) /\
    shape_of lon = (if n =? 1 then None else Some n) /\
    shape_of d = (if n =? 1 then None else Some n) /\
    forall i, i < n ->
      (item nan lat i, item nan lon i, item nan d i) =
      look_e D aer enu g2e e2g (item nan lat0 i) (item nan lon0 i) (item nan h0 i)
        (item nan az i) (item nan tilt i) ell deg.
Proof.
  intros HB HG. do 3 eexists.
  split; [exact (lookAtSpheroid_numpy D aer enu g2e e2g _ _ _ _ _ _ _ n HB HG)|].
  rewrite !shape_squeezed. repeat split. intros i Hi.
  rewrite !item_squeezed by exact Hi.
  now destruct (look_e _ _ _ _ _ _ _ _ _ _ _ _) as [[? ?] ?].
Qed.

(** C6.  The solver works on the axis triple [(a, a, b)], [a] the
    semi-major and [b] the semi-minor axis of the ellipsoid in effect: a
    returned slant range that is not the sentinel is the near root of
    the formulas of lines 89-105 taken at [(a, a, b)], and the point at
    that distance along the line of sight lies on the ellipsoid with
    semi-axes [(a, a, b)]: the formulas are the triaxial ray-ellipsoid
    quadratic at [a_x = a_y = a], [a_z = b]. *)
Theorem solver_uses_axes_a_a_b rt lat0 lon0 h0 az tilt ell deg n lat lon d i r :
  valid_ellipsoid (ellipsoid_of D ell) ->
  admissible rt [lat0; lon0; h0; az; tilt] n ->
  altitude_is_negative h0 = Ok false ->
  lookAtSpheroid D (elementwise3 aer) (elementwise5 enu) (elementwise3 g2e) (elementwise3 e2g)
    rt lat0 lon0 h0 az tilt ell deg = Ok (lat, lon, d) ->
  i < n ->
  item nan d i = fin r ->
  exists a b u v w x y z,
    semimajor_axis (ellipsoid_of D ell) = fin a /\
    semiminor_axis (ellipsoid_of D ell) = fin b /\
    direction_e aer enu (item nan lat0 i) (item nan lon0 i) (item nan az i) (item nan tilt i) deg
      = (fin u, fin v, fin w) /\
    observer_e g2e (item nan lat0 i) (item nan lon0 i) (item nan h0 i) deg
      = (fin x, fin y, fin z) /\
    r = near_root R_sqrt.sqrt a a b (value a a b u v w x y z) (radical a a b u v w x y z)
          (magnitude a a b u v w) /\
    on_ellipsoid a a b (x + r * u) (y + r * v) (z + r * w).
Proof.
  intros Hell Hadm HG Hlook Hi Hd.
  pose proof (lookAtSpheroid_items D aer enu g2e e2g _ _ _ _ _ _ _ _ _ _ _ _ _ Hadm HG Hlook Hi)
    as Hitem.
  apply look_item_range in Hitem. destruct Hitem as [E|(E & _ & _)];
    [rewrite E in Hd; discriminate|].
  rewrite Hd in E. symmetry in E.
  destruct (near_root_e_fin D aer enu g2e _ _ _ _ _ _ _ _ E)
    as (a & c & u & v & w & x & y & z & Ea & Ec & Edir & Eobs & Hr & Hm & _ & Er & _).
  exists a, c, u, v, w, x, y, z. repeat (split; [assumption|]).
  unfold valid_ellipsoid in Hell. rewrite Ea, Ec in Hell.
  rewrite Er. apply near_root_on_ellipsoid; try assumption; lra.
Qed.

(** C9.  A scalar altitude that is not-a-number passes the test of line
    66 (the comparison is false), so no invalid-altitude error is
    raised; when the collaborators hand the not-a-number on (a
    not-a-number altitude gives a not-a-number position, a not-a-number
    point gives not-a-number angles) all three outputs are the sentinel.
    Without numpy the float division of line 109 must not be by zero. *)
Theorem nan_altitude_propagates rt lat0 lon0 az tilt ell deg n :
  (forall lat lon, g2e deg lat lon nan = (nan, nan, nan)) ->
  fst (fst (e2g deg nan nan nan)) = nan ->
  snd (fst (e2g deg nan nan nan)) = nan ->
  admissible rt [lat0; lon0; Scalar nan; az; tilt] n ->
  (rt = MathOnly ->
   Float.is_zero (magnitude_e D aer enu (item nan lat0 0) (item nan lon0 0) (item nan az 0)
                    (item nan tilt 0) ell deg) = false) ->
  altitude_is_negative (Scalar nan) = Ok false /\
  exists lat lon d,
    lookAtSpheroid D (elementwise3 aer) (elementwise5 enu) (elementwise3 g2e) (elementwise3 e2g)
      rt lat0 lon0 (Scalar nan) az tilt ell deg = Ok (lat, lon, d) /\
    forall i, i < n -> item nan lat i = nan /\ item nan lon i = nan /\ item nan d i = nan.
Proof.
  intros Hg H1 H2 Hadm Hmag. split; [reflexivity|].
  assert (Hnear : forall la lo a t, near_root_e D aer enu g2e la lo nan a t ell deg = nan).
  { intros. unfold near_root_e, value_e, observer_e, axes. rewrite Hg.
    destruct (direction_e _ _ _ _ _ _ _) as [[u v] w]. now rewrite value_nan. }
  destruct rt.
  - rewrite (lookAtSpheroid_numpy D aer enu g2e e2g _ _ _ _ _ _ _ n Hadm eq_refl).
    do 3 eexists. split; [reflexivity|]. intros i Hi. rewrite !item_squeezed by exact Hi.
    unfold look_e. cbn [item]. rewrite Hnear, masked_nan, finish_e_nan by assumption. auto.
  - destruct (admissible_math _ _ _ _ _ _ Hadm) as (a & b & c & d & e & -> & -> & Ec & -> & -> & ->).
    rewrite lookAtSpheroid_math. cbn [Float.ltb]. unfold look_math.
    cbn [item] in Hmag. rewrite (Hmag eq_refl), Hnear.
    destruct (Float.ltb _ _); rewrite finish_e_nan by assumption;
      (do 3 eexists; split; [reflexivity|]; intros i Hi; auto).
Qed.

(** X1.  With numpy, a returned slant range is the sentinel or a number
    that is not negative (lines 110-111). *)
Theorem numpy_range_is_nan_or_not_negative lat0 lon0 h0 az tilt ell deg n lat lon d i :
  broadcast_length [lat0; lon0; h0; az; tilt] = Some n ->
  altitude_is_negative h0 = Ok false ->
  lookAtSpheroid D (elementwise3 aer) (elementwise5 enu) (elementwise3 g2e) (elementwise3 e2g)
    WithNumpy lat0 lon0 h0 az tilt ell deg = Ok (lat, lon, d) ->
  i < n ->
  item nan d i = nan \/ Float.nonneg (item nan d i).
Proof.
  intros HB HG Hlook Hi.
  pose proof (lookAtSpheroid_items D aer enu g2e e2g WithNumpy _ _ _ _ _ _ _ _ _ _ _ _ HB HG
                Hlook Hi) as Hitem.
  apply look_item_range in Hitem. destruct Hitem as [E|(_ & _ & Hn)]; auto.
Qed.

(** C2, where the code departs from it.  Without numpy, for a radical
    that is not negative, line 110 raises the [TypeError] that line 117
    passes over, and line 111 is never reached: the near root is
    returned as the slant range whatever its sign, a negative one too. *)
Theorem math_range_can_be_negative lat0 lon0 h0 az tilt ell deg (r : R) :
  Float.ltb h0 (fin 0) = false ->
  Float.ltb (radical_e D aer enu g2e lat0 lon0 h0 az tilt ell deg) (fin 0) = false ->
  Float.is_zero (magnitude_e D aer enu lat0 lon0 az tilt ell deg) = false ->
  near_root_e D aer enu g2e lat0 lon0 h0 az tilt ell deg = fin r ->
  exists lat lon,
    lookAtSpheroid D (elementwise3 aer) (elementwise5 enu) (elementwise3 g2e) (elementwise3 e2g)
      MathOnly (Scalar lat0) (Scalar lon0) (Scalar h0) (Scalar az) (Scalar tilt) ell deg =
    Ok (Scalar lat, Scalar lon, Scalar (fin r)).
Proof.
  intros Hh Hrad Hmag Hd. rewrite lookAtSpheroid_math, Hh. unfold look_math.
  rewrite Hrad, Hmag, Hd.
  pose proof (finish_e_range aer enu g2e e2g lat0 lon0 h0 az tilt deg (fin r)) as Hs.
  destruct (finish_e aer enu g2e e2g lat0 lon0 h0 az tilt deg (fin r)) as [[la lo] dd].
  cbn [snd] in Hs. subst dd. exists la, lo. reflexivity.
Qed.

End Elementwise.

Section Equator.
Local Open Scope R_scope.

(** ** The stand-in collaborators on the equator *)

Lemma stub_direction (t : R) :
  direction_e Stub.aer2enu_e Stub.enu2uvw_e (fin 0) (fin 0) (fin 0) (fin t) true =
  (fin (sin ((t - 90) * (PI / 180))), fin 0, fin (cos ((t - 90) * (PI / 180)))).
Proof.
  unfold direction_e, elevation_e, Stub.aer2enu_e, Stub.enu2uvw_e, Stub.angle, radians,
    Stub.sin, Stub.cos.
  cbn [padd psub pmul float_Arith Float.mul Float.sub Float.add Float.lift2 Stub.lift1].
  rewrite !Rmult_0_l, sin_0, cos_0.
  repeat (apply f_equal2 || apply f_equal); ring.
Qed.

Lemma stub_observer (h : R) :
  observer_e Stub.geodetic2ecef_e (fin 0) (fin 0) (fin h) true =
  (fin (6378137 + h), fin 0, fin 0).
Proof.
  unfold observer_e, Stub.geodetic2ecef_e, Stub.angle, radians, Stub.sin, Stub.cos.
  cbn [padd psub pmul float_Arith Float.mul Float.sub Float.add Float.lift2 Stub.lift1
       semimajor_axis Stub.Ellipsoid_default].
  rewrite !Rmult_0_l, sin_0, cos_0.
  repeat (apply f_equal2 || apply f_equal); ring.
Qed.

Lemma sin_nadir : sin ((0 - 90) * (PI / 180)) = (-1)%R.
Proof. replace ((0 - 90) * (PI / 180))%R with (- (PI / 2))%R by field. now rewrite sin_neg, sin_PI2. Qed.

Lemma cos_nadir : cos ((0 - 90) * (PI / 180)) = 0%R.
Proof. replace ((0 - 90) * (PI / 180))%R with (- (PI / 2))%R by field. now rewrite cos_neg, cos_PI2. Qed.

Lemma sin_horizon : sin ((90 - 90) * (PI / 180)) = 0%R.
Proof. replace ((90 - 90) * (PI / 180))%R with 0%R by field. apply sin_0. Qed.

Lemma cos_horizon : cos ((90 - 90) * (PI / 180)) = 1%R.
Proof. replace ((90 - 90) * (PI / 180))%R with 0%R by field. apply cos_0. Qed.

Lemma sin_zenith : sin ((180 - 90) * (PI / 180)) = 1%R.
Proof. replace ((180 - 90) * (PI / 180))%R with (PI / 2)%R by field. apply sin_PI2. Qed.

Lemma cos_zenith : cos ((180 - 90) * (PI / 180)) = 0%R.
Proof. replace ((180 - 90) * (PI / 180))%R with (PI / 2)%R by field. apply cos_PI2. Qed.

(** The formulas of one element for an observer on the equator at
    longitude zero, looking along azimuth zero. *)
Lemma stub_radical (h t : R) :
  radical_e Stub.Ellipsoid_default Stub.aer2enu_e Stub.enu2uvw_e Stub.geodetic2ecef_e
    (fin 0) (fin 0) (fin h) (fin 0) (fin t) None true =
  fin (radical 6378137 6378137 (6356752314245 / 1000000)
         (sin ((t - 90) * (PI / 180))) 0 (cos ((t - 90) * (PI / 180))) (6378137 + h) 0 0).
Proof. unfold radical_e. now rewrite stub_direction, stub_observer. Qed.

Lemma stub_value (h t : R) :
  value_e Stub.Ellipsoid_default Stub.aer2enu_e Stub.enu2uvw_e Stub.geodetic2ecef_e
    (fin 0) (fin 0) (fin h) (fin 0) (fin t) None true =
  fin (value 6378137 6378137 (6356752314245 / 1000000)
         (sin ((t - 90) * (PI / 180))) 0 (cos ((t - 90) * (PI / 180))) (6378137 + h) 0 0).
Proof. unfold value_e. now rewrite stub_direction, stub_observer. Qed.

Lemma stub_magnitude (t : R) :
  magnitude_e Stub.Ellipsoid_default Stub.aer2enu_e Stub.enu2uvw_e
    (fin 0) (fin 0) (fin 0) (fin t) None true =
  fin (magnitude 6378137 6378137 (6356752314245 / 1000000)
         (sin ((t - 90) * (PI / 180))) 0 (cos ((t - 90) * (PI / 180)))).
Proof. unfold magnitude_e. now rewrite stub_direction. Qed.

Lemma stub_near_root (h t : R) :
  near_root_e Stub.Ellipsoid_default Stub.aer2enu_e Stub.enu2uvw_e Stub.geodetic2ecef_e
    (fin 0) (fin 0) (fin h) (fin 0) (fin t) None true =
  near_root Float.sqrt (fin 6378137) (fin 6378137) (fin (6356752314245 / 1000000))
    (fin (value 6378137 6378137 (6356752314245 / 1000000)
            (sin ((t - 90) * (PI / 180))) 0 (cos ((t - 90) * (PI / 180))) (6378137 + h) 0 0))
    (fin (radical 6378137 6378137 (6356752314245 / 1000000)
            (sin ((t - 90) * (PI / 180))) 0 (cos ((t - 90) * (PI / 180))) (6378137 + h) 0 0))
    (fin (magnitude 6378137 6378137 (6356752314245 / 1000000)
            (sin ((t - 90) * (PI / 180))) 0 (cos ((t - 90) * (PI / 180))))).
Proof.
  unfold near_root_e. now rewrite stub_value, stub_radical, stub_magnitude.
Qed.

(** Looking straight down from 600 km: the slant range is the altitude. *)
Lemma stub_nadir_range :
  near_root_e Stub.Ellipsoid_default Stub.aer2enu_e Stub.enu2uvw_e Stub.geodetic2ecef_e
    (fin 0) (fin 0) (fin 600000) (fin 0) (fin 0) None true = fin 600000.
Proof.
  rewrite stub_near_root, sin_nadir, cos_nadir.
  assert (Hrad : radical 6378137 6378137 (6356752314245 / 1000000) (-1) 0 0 (6378137 + 600000) 0 0
                 = ((6378137 * (6356752314245 / 1000000)) * (6378137 * (6356752314245 / 1000000)))%R).
  { unfold radical. cbn [padd psub pmul plit R_Arith]. ring. }
  rewrite near_root_of_fin.
  - f_equal. unfold near_root. cbn [psub pmul pdiv R_Arith]. rewrite Hrad, sqrt_square by lra.
    unfold value, magnitude. cbn [padd psub pmul pneg R_Arith]. field.
  - rewrite Hrad. nra.
  - unfold magnitude. cbn [padd pmul R_Arith]. lra.
Qed.

Lemma stub_nadir_radical :
  Float.ltb (radical_e Stub.Ellipsoid_default Stub.aer2enu_e Stub.enu2uvw_e Stub.geodetic2ecef_e
               (fin 0) (fin 0) (fin 600000) (fin 0) (fin 0) None true) (fin 0) = false.
Proof.
  rewrite stub_radical, sin_nadir, cos_nadir. apply ltb_false.
  unfold radical. cbn [padd psub pmul plit R_Arith]. lra.
Qed.

(** Looking along the horizon: the line misses. *)
Lemma stub_horizon_radical :
  Float.ltb (radical_e Stub.Ellipsoid_default Stub.aer2enu_e Stub.enu2uvw_e Stub.geodetic2ecef_e
               (fin 0) (fin 0) (fin 600000) (fin 0) (fin 90) None true) (fin 0) = true.
Proof.
  rewrite stub_radical, sin_horizon, cos_horizon. apply ltb_true.
  unfold radical. cbn [padd psub pmul plit R_Arith]. lra.
Qed.

(** Looking straight up: both roots lie behind the observer. *)
Lemma stub_zenith_range :
  near_root_e Stub.Ellipsoid_default Stub.aer2enu_e Stub.enu2uvw_e Stub.geodetic2ecef_e
    (fin 0) (fin 0) (fin 600000) (fin 0) (fin 180) None true = fin (-13356274).
Proof.
  rewrite stub_near_root, sin_zenith, cos_zenith.
  assert (Hrad : radical 6378137 6378137 (6356752314245 / 1000000) 1 0 0 (6378137 + 600000) 0 0
                 = ((6378137 * (6356752314245 / 1000000)) * (6378137 * (6356752314245 / 1000000)))%R).
  { unfold radical. cbn [padd psub pmul plit R_Arith]. ring. }
  rewrite near_root_of_fin.
  - f_equal. unfold near_root. cbn [psub pmul pdiv R_Arith]. rewrite Hrad, sqrt_square by lra.
    unfold value, magnitude. cbn [padd psub pmul pneg R_Arith]. field.
  - rewrite Hrad. nra.
  - unfold magnitude. cbn [padd pmul R_Arith]. lra.
Qed.

Lemma stub_zenith_radical :
  Float.ltb (radical_e Stub.Ellipsoid_default Stub.aer2enu_e Stub.enu2uvw_e Stub.geodetic2ecef_e
               (fin 0) (fin 0) (fin 600000) (fin 0) (fin 180) None true) (fin 0) = false.
Proof.
  rewrite stub_radical, sin_zenith, cos_zenith. apply ltb_false.
  unfold radical. cbn [padd psub pmul plit R_Arith]. lra.
Qed.

Lemma stub_zenith_magnitude :
  Float.is_zero (magnitude_e Stub.Ellipsoid_default Stub.aer2enu_e Stub.enu2uvw_e
                   (fin 0) (fin 0) (fin 0) (fin 180) None true) = false.
Proof.
  rewrite stub_magnitude, sin_zenith, cos_zenith. apply is_zero_false.
  unfold magnitude. cbn [padd pmul R_Arith]. lra.
Qed.

Lemma stub_valid : valid_ellipsoid (ellipsoid_of Stub.Ellipsoid_default None).
Proof. cbn. lra. Qed.

Lemma stub_nan_point deg :
  fst (fst (Stub.ecef2geodetic_e deg nan nan nan)) = nan /\
  snd (fst (Stub.ecef2geodetic_e deg nan nan nan)) = nan.
Proof. destruct deg; split; reflexivity. Qed.

Lemma stub_nan_altitude deg lat lon : Stub.geodetic2ecef_e deg lat lon nan = (nan, nan, nan).
Proof.
  unfold Stub.geodetic2ecef_e. cbn [padd pmul float_Arith]. now rewrite add_nan_r.
Qed.

Lemma altitude_600km : altitude_is_negative (Scalar (fin 600000)) = Ok false.
Proof. rewrite altitude_scalar. f_equal. apply ltb_false. lra. Qed.

End Equator.

(** ** Elementwise calls and maps over their arguments *)

Lemma zip_with_map_l (A A' B C : Type) (f : A' -> B -> C) (g : A -> A') xs ys :
  zip_with f (map g xs) ys = zip_with (fun x y => f (g x) y) xs ys.
Proof.
  unfold zip_with. revert ys. induction xs as [|x xs IH]; intros [|y ys]; cbn; try reflexivity.
  now rewrite IH.
Qed.

Lemma zip_with_post (A B C C' : Type) (k : C -> C') (f : A -> B -> C) xs ys :
  zip_with (fun x y => k (f x y)) xs ys = map k (zip_with f xs ys).
Proof. unfold zip_with. now rewrite map_map. Qed.

Lemma lift2_map_l (A A' B C : Type) (f : A' -> B -> C) (g : A -> A') (v : nd A) (w : nd B) :
  lift2 f (nd_map g v) w = lift2 (fun x y => f (g x) y) v w.
Proof.
  destruct v as [x|xs], w as [y|ys]; cbn [nd_map lift2]; try reflexivity.
  - now rewrite map_map.
  - rewrite length_map, zip_with_map_l. destruct (length xs =? length ys); [reflexivity|].
    destruct xs as [|x [|x' xs]]; cbn [map]; try reflexivity;
      destruct ys as [|y [|y' ys]]; try reflexivity; cbn [map]; now rewrite ?map_map.
Qed.

Lemma lift2_post (A B C C' : Type) (k : C -> C') (f : A -> B -> C) (v : nd A) (w : nd B) :
  lift2 (fun x y => k (f x y)) v w = r <- lift2 f v w ;; Ok (nd_map k r).
Proof.
  destruct v as [x|xs], w as [y|ys]; cbn [nd_map lift2 bind]; try reflexivity.
  - now rewrite map_map.
  - now rewrite map_map.
  - destruct (length xs =? length ys); cbn [bind nd_map].
    + now rewrite zip_with_post.
    + destruct xs as [|x [|x' xs]]; try reflexivity;
        destruct ys as [|y [|y' ys]]; cbn [bind nd_map]; now rewrite ?map_map.
Qed.

Lemma nd_map_map (A B C : Type) (f : A -> B) (g : B -> C) (v : nd A) :
  nd_map g (nd_map f v) = nd_map (fun x => g (f x)) v.
Proof. destruct v; cbn; [reflexivity|now rewrite map_map]. Qed.

Lemma nd_map_ext (A B : Type) (f g : A -> B) (v : nd A) :
  (forall x, f x = g x) -> nd_map f v = nd_map g v.
Proof. intros H. destruct v; cbn; [now rewrite H|f_equal; now apply map_ext]. Qed.

Lemma lift3_map_12 f g h a b c :
  lift3 f (nd_map g a) (nd_map h b) c = lift3 (fun x y z => f (g x) (h y) z) a b c.
Proof.
  unfold lift3. rewrite lift2_map_l.
  assert (E : lift2 (fun (x : pyfloat) (y : pyfloat) => (g x, y)) a (nd_map h b) =
              r <- lift2 pair a b ;; Ok (nd_map (fun p : pyfloat * pyfloat => (g (fst p), h (snd p))) r)).
  { rewrite <- (lift2_post _ _ _ _ (fun p : pyfloat * pyfloat => (g (fst p), h (snd p))) pair).
    cbn [fst snd]. destruct a as [x|xs], b as [y|ys]; cbn [nd_map lift2]; try reflexivity.
    - now rewrite map_map.
    - rewrite length_map. unfold zip_with.
      assert (Hc : forall (l1 l2 : list pyfloat),
                 map (fun p : pyfloat * pyfloat => (g (fst p), snd p)) (combine l1 (map h l2)) =
                 map (fun p : pyfloat * pyfloat => (g (fst p), h (snd p))) (combine l1 l2)).
      { induction l1 as [|x1 l1 IH]; intros [|y1 l2]; cbn; try reflexivity. now rewrite IH. }
      rewrite Hc. destruct (length xs =? length ys); [reflexivity|].
      destruct xs as [|x [|x' xs]]; try reflexivity;
        destruct ys as [|y [|y' ys]]; try reflexivity; cbn [map]; now rewrite ?map_map. }
  rewrite E. destruct (lift2 pair a b) as [ab|e]; cbn [bind]; [|reflexivity].
  now rewrite lift2_map_l.
Qed.

Lemma lift5_map_45 f g h a b c d e :
  lift5 f a b c (nd_map g d) (nd_map h e) = lift5 (fun x y z s t => f x y z (g s) (h t)) a b c d e.
Proof.
  unfold lift5.
  destruct (lift2 pair a b) as [ab|ex]; cbn [bind]; [|reflexivity].
  destruct (lift2 pair ab c) as [abc|ex]; cbn [bind]; [|reflexivity].
  assert (E : lift2 pair abc (nd_map g d) =
              r <- lift2 pair abc d ;;
              Ok (nd_map (fun p : pyfloat * pyfloat * pyfloat * pyfloat => (fst p, g (snd p))) r)).
  { rewrite <- (lift2_post _ _ _ _
                  (fun p : pyfloat * pyfloat * pyfloat * pyfloat => (fst p, g (snd p))) pair).
    cbn [fst snd]. destruct abc as [x|xs], d as [y|ys]; cbn [nd_map lift2]; try reflexivity.
    - now rewrite map_map.
    - rewrite length_map. unfold zip_with.
      assert (Hc : forall (l1 : list (pyfloat * pyfloat * pyfloat)) (l2 : list pyfloat),
                 map (fun p => (fst p, snd p)) (combine l1 (map g l2)) =
                 map (fun p => (fst p, g (snd p))) (combine l1 l2)).
      { induction l1 as [|x1 l1 IH]; intros [|y1 l2]; cbn; try reflexivity. now rewrite IH. }
      rewrite Hc. destruct (length xs =? length ys); [reflexivity|].
      destruct xs as [|x [|x' xs]]; try reflexivity;
        destruct ys as [|y [|y' ys]]; try reflexivity; cbn [map]; now rewrite ?map_map. }
  rewrite E. destruct (lift2 pair abc d) as [abcd|ex]; cbn [bind]; [|reflexivity].
  rewrite lift2_map_l.
  assert (E2 : forall (F : pyfloat * pyfloat * pyfloat * pyfloat -> pyfloat -> triple),
             lift2 F abcd (nd_map h e) = lift2 (fun p t => F p (h t)) abcd e).
  { intros F. destruct abcd as [x|xs], e as [y|ys]; cbn [nd_map lift2]; try reflexivity.
    - now rewrite map_map.
    - rewrite length_map. unfold zip_with.
      assert (Hc : forall (l1 : list (pyfloat * pyfloat * pyfloat * pyfloat)) (l2 : list pyfloat),
                 map (fun p => F (fst p) (snd p)) (combine l1 (map h l2)) =
                 map (fun p => F (fst p) (h (snd p))) (combine l1 l2)).
      { induction l1 as [|x1 l1 IH]; intros [|y1 l2]; cbn; try reflexivity. now rewrite IH. }
      rewrite Hc. destruct (length xs =? length ys); [reflexivity|].
      destruct xs as [|x [|x' xs]]; try reflexivity;
        destruct ys as [|y [|y' ys]]; try reflexivity; cbn [map]; now rewrite ?map_map. }
  rewrite E2. reflexivity.
Qed.

Lemma lift3_post f (k1 k2 : pyfloat -> pyfloat) a b c :
  lift3 (fun x y z => let '(p, q, r) := f x y z in (k1 p, k2 q, r)) a b c =
  '(p, q, r) <- lift3 f a b c ;; Ok (nd_map k1 p, nd_map k2 q, r).
Proof.
  unfold lift3. destruct (lift2 pair a b) as [ab|ex]; cbn [bind]; [|reflexivity].
  rewrite (lift2_post _ _ _ _ (fun t : triple => let '(p, q, r) := t in (k1 p, k2 q, r))
             (fun (p : pyfloat * pyfloat) z => f (fst p) (snd p) z)).
  destruct (lift2 _ ab c) as [r|ex]; cbn [bind]; [|reflexivity].
  unfold unzip3. rewrite !nd_map_map.
  rewrite (nd_map_ext _ _ (fun t : triple => fst (fst (let '(p, q, r0) := t in (k1 p, k2 q, r0))))
             (fun t : triple => k1 (fst (fst t))) r) by (now intros [[? ?] ?]).
  rewrite (nd_map_ext _ _ (fun t : triple => snd (fst (let '(p, q, r0) := t in (k1 p, k2 q, r0))))
             (fun t : triple => k2 (snd (fst t))) r) by (now intros [[? ?] ?]).
  rewrite (nd_map_ext _ _ (fun t : triple => snd (let '(p, q, r0) := t in (k1 p, k2 q, r0)))
             (fun t : triple => snd t) r) by (now intros [[? ?] ?]).
  reflexivity.
Qed.

(** The stand-ins honour the unit flag. *)

Lemma stub_aer2enu_units az el r :
  Stub.aer2enu az el r true = Stub.aer2enu (vradians az) (vradians el) r false.
Proof. unfold Stub.aer2enu, elementwise3, vradians. now rewrite lift3_map_12. Qed.

Lemma stub_enu2uvw_units e n u lat lon :
  Stub.enu2uvw e n u lat lon true = Stub.enu2uvw e n u (vradians lat) (vradians lon) false.
Proof. unfold Stub.enu2uvw, elementwise5, vradians. now rewrite lift5_map_45. Qed.

Lemma stub_geodetic2ecef_units lat lon h :
  Stub.geodetic2ecef lat lon h true = Stub.geodetic2ecef (vradians lat) (vradians lon) h false.
Proof. unfold Stub.geodetic2ecef, elementwise3, vradians. now rewrite lift3_map_12. Qed.

Lemma stub_ecef2geodetic_units x y z :
  Stub.ecef2geodetic x y z true = in_degrees (Stub.ecef2geodetic x y z false).
Proof.
  unfold Stub.ecef2geodetic, elementwise3, in_degrees, vdegrees.
  rewrite <- (lift3_post (Stub.ecef2geodetic_e false) degrees degrees).
  unfold Stub.ecef2geodetic_e. f_equal.
Qed.

(** ** The theorems at concrete inputs *)

Lemma stub_nadir_slant :
  snd (look_e Stub.Ellipsoid_default Stub.aer2enu_e Stub.enu2uvw_e Stub.geodetic2ecef_e
         Stub.ecef2geodetic_e (fin 0) (fin 0) (fin 600000) (fin 0) (fin 0) None true) = fin 600000.
Proof.
  unfold look_e. rewrite finish_e_range, stub_nadir_range. unfold masked.
  rewrite stub_nadir_radical. replace (Float.ltb (fin 600000) (fin 0)) with false; [reflexivity|].
  symmetry. apply ltb_false. lra.
Qed.

Lemma stub_nadir_call :
  Stub.lookAtSpheroid WithNumpy (Scalar (fin 0)) (Scalar (fin 0)) (Scalar (fin 600000))
    (Scalar (fin 0)) (Scalar (fin 0)) None true =
  Ok (squeezed 1 (fun _ => fst (fst (look_e Stub.Ellipsoid_default Stub.aer2enu_e Stub.enu2uvw_e
                     Stub.geodetic2ecef_e Stub.ecef2geodetic_e
                     (fin 0) (fin 0) (fin 600000) (fin 0) (fin 0) None true))),
      squeezed 1 (fun _ => snd (fst (look_e Stub.Ellipsoid_default Stub.aer2enu_e Stub.enu2uvw_e
                     Stub.geodetic2ecef_e Stub.ecef2geodetic_e
                     (fin 0) (fin 0) (fin 600000) (fin 0) (fin 0) None true))),
      squeezed 1 (fun _ => snd (look_e Stub.Ellipsoid_default Stub.aer2enu_e Stub.enu2uvw_e
                     Stub.geodetic2ecef_e Stub.ecef2geodetic_e
                     (fin 0) (fin 0) (fin 600000) (fin 0) (fin 0) None true))).
Proof.
  unfold Stub.lookAtSpheroid, Stub.aer2enu, Stub.enu2uvw, Stub.geodetic2ecef, Stub.ecef2geodetic.
  apply (lookAtSpheroid_numpy Stub.Ellipsoid_default Stub.aer2enu_e Stub.enu2uvw_e
           Stub.geodetic2ecef_e Stub.ecef2geodetic_e (Scalar (fin 0)) (Scalar (fin 0))
           (Scalar (fin 600000)) (Scalar (fin 0)) (Scalar (fin 0)) None true 1 eq_refl altitude_600km).
Qed.

Lemma negative_altitude_raises_witness :
  lookAtSpheroid Stub.Ellipsoid_default failing3 failing5 failing3 failing3
    MathOnly (Scalar (fin 0)) (Scalar (fin 0)) (Scalar (fin (-1))) (Scalar (fin 0))
    (Scalar (fin 0)) None true = Raise ValueError.
Proof. apply negative_altitude_raises. lra. Defined.

Lemma array_altitude_raises_witness :
  Stub.lookAtSpheroid WithNumpy (Scalar (fin 0)) (Scalar (fin 0)) (Array [fin 600000; fin 700000])
    (Scalar (fin 0)) (Scalar (fin 0)) None true = Raise ValueError.
Proof. apply array_altitude_raises. cbn. lia. Defined.

Lemma degrees_and_radians_agree_witness :
  Stub.lookAtSpheroid WithNumpy (Scalar (fin 0)) (Scalar (fin 0)) (Scalar (fin 600000))
    (Scalar (fin 0)) (Array [fin 0; fin 30]) None true =
  in_degrees
    (Stub.lookAtSpheroid WithNumpy (vradians (Scalar (fin 0))) (vradians (Scalar (fin 0)))
       (Scalar (fin 600000)) (vradians (Scalar (fin 0))) (vradians (Array [fin 0; fin 30]))
       None false).
Proof.
  apply (degrees_and_radians_agree Stub.Ellipsoid_default Stub.aer2enu Stub.enu2uvw
           Stub.geodetic2ecef Stub.ecef2geodetic).
  - exact stub_aer2enu_units.
  - exact stub_enu2uvw_units.
  - exact stub_geodetic2ecef_units.
  - exact stub_ecef2geodetic_units.
Defined.

Lemma magnitude_positive_witness :
  (0 < magnitude 6378137 6378137 (6356752314245 / 1000000) 0 0 1)%R /\
  magnitude (fin 6378137) (fin 6378137) (fin (6356752314245 / 1000000)) (fin 0) (fin 0) (fin 1) =
  fin (magnitude 6378137 6378137 (6356752314245 / 1000000) 0 0 1)%R /\
  Float.is_zero (magnitude (fin 6378137) (fin 6378137) (fin (6356752314245 / 1000000))
                   (fin 0) (fin 0) (fin 1)) = false.
Proof. apply magnitude_positive; lra. Defined.

Lemma negative_radical_gives_nan_witness :
  exists lat lon d,
    Stub.lookAtSpheroid WithNumpy (Scalar (fin 0)) (Scalar (fin 0)) (Scalar (fin 600000))
      (Scalar (fin 0)) (Array [fin 0; fin 90]) None true = Ok (lat, lon, d) /\
    item nan lat 1 = nan /\ item nan lon 1 = nan /\ item nan d 1 = nan.
Proof.
  apply (negative_radical_gives_nan Stub.Ellipsoid_default Stub.aer2enu_e Stub.enu2uvw_e
           Stub.geodetic2ecef_e Stub.ecef2geodetic_e WithNumpy (Scalar (fin 0)) (Scalar (fin 0))
           (Scalar (fin 600000)) (Scalar (fin 0)) (Array [fin 0; fin 90]) None true 2 1).
  - apply stub_nan_point.
  - apply stub_nan_point.
  - reflexivity.
  - exact altitude_600km.
  - lia.
  - exact stub_horizon_radical.
Defined.

Lemma returned_range_is_near_root_witness :
  Float.le
    (near_root_e Stub.Ellipsoid_default Stub.aer2enu_e Stub.enu2uvw_e Stub.geodetic2ecef_e
       (fin 0) (fin 0) (fin 600000) (fin 0) (fin 0) None true)
    (far_root_e Stub.Ellipsoid_default Stub.aer2enu_e Stub.enu2uvw_e Stub.geodetic2ecef_e
       (fin 0) (fin 0) (fin 600000) (fin 0) (fin 0) None true).
Proof.
  refine (proj2 (proj2 (returned_range_is_near_root Stub.Ellipsoid_default Stub.aer2enu_e
           Stub.enu2uvw_e Stub.geodetic2ecef_e Stub.ecef2geodetic_e WithNumpy (Scalar (fin 0))
           (Scalar (fin 0)) (Scalar (fin 600000)) (Scalar (fin 0)) (Scalar (fin 0)) None true 1
           _ _ _ 0 stub_valid eq_refl altitude_600km stub_nadir_call (le_n 1) _))).
  cbn [squeezed Nat.eqb item]. rewrite stub_nadir_slant. reflexivity.
Defined.

Lemma output_shape_and_elements_witness :
  exists lat lon d,
    Stub.lookAtSpheroid WithNumpy (Array [fin 0; fin 0; fin 0]) (Scalar (fin 0))
      (Scalar (fin 600000)) (Array [fin 0]) (Array [fin 0; fin 10; fin 20]) None true =
    Ok (lat, lon, d) /\
    shape_of lat = Some 3 /\ shape_of lon = Some 3 /\ shape_of d = Some 3 /\
    forall i, i < 3 ->
      (item nan lat i, item nan lon i, item nan d i) =
      look_e Stub.Ellipsoid_default Stub.aer2enu_e Stub.enu2uvw_e Stub.geodetic2ecef_e
        Stub.ecef2geodetic_e (item nan (Array [fin 0; fin 0; fin 0]) i) (fin 0) (fin 600000)
        (fin 0) (item nan (Array [fin 0; fin 10; fin 20]) i) None true.
Proof.
  apply (output_shape_and_elements Stub.Ellipsoid_default Stub.aer2enu_e Stub.enu2uvw_e
           Stub.geodetic2ecef_e Stub.ecef2geodetic_e (Array [fin 0; fin 0; fin 0])
           (Scalar (fin 0)) (Scalar (fin 600000)) (Array [fin 0])
           (Array [fin 0; fin 10; fin 20]) None true 3 eq_refl altitude_600km).
Defined.

(** C5, the counterexample.  Every input is an array of shape [(1,)], and
    every output is a scalar, not an array of that shape. *)
Lemma one_element_arrays_give_scalars :
  shape_of (Array [fin 0] : pyval) = Some 1 /\
  shape_of (Array [fin 600000] : pyval) = Some 1 /\
  exists lat lon d,
    Stub.lookAtSpheroid WithNumpy (Array [fin 0]) (Array [fin 0]) (Array [fin 600000])
      (Array [fin 0]) (Array [fin 0]) None true = Ok (lat, lon, d) /\
    shape_of lat = None /\ shape_of lon = None /\ shape_of d = None.
Proof.
  split; [reflexivity|]. split; [reflexivity|].
  assert (HG : altitude_is_negative (Array [fin 600000]) = Ok false).
  { unfold altitude_is_negative, lt. cbn [lift2 map bind truth]. f_equal.
    apply ltb_false. lra. }
  unfold Stub.lookAtSpheroid, Stub.aer2enu, Stub.enu2uvw, Stub.geodetic2ecef, Stub.ecef2geodetic.
  rewrite (lookAtSpheroid_numpy Stub.Ellipsoid_default Stub.aer2enu_e Stub.enu2uvw_e
             Stub.geodetic2ecef_e Stub.ecef2geodetic_e (Array [fin 0]) (Array [fin 0])
             (Array [fin 600000]) (Array [fin 0]) (Array [fin 0]) None true 1 eq_refl HG).
  do 3 eexists. split; [reflexivity|]. repeat split.
Qed.

Lemma solver_uses_axes_a_a_b_witness :
  exists a b u v w x y z,
    semimajor_axis (ellipsoid_of Stub.Ellipsoid_default None) = fin a /\
    semiminor_axis (ellipsoid_of Stub.Ellipsoid_default None) = fin b /\
    direction_e Stub.aer2enu_e Stub.enu2uvw_e (fin 0) (fin 0) (fin 0) (fin 0) true
      = (fin u, fin v, fin w) /\
    observer_e Stub.geodetic2ecef_e (fin 0) (fin 0) (fin 600000) true = (fin x, fin y, fin z) /\
    600000%R = near_root R_sqrt.sqrt a a b (value a a b u v w x y z) (radical a a b u v w x y z)
                 (magnitude a a b u v w) /\
    on_ellipsoid a a b (x + 600000 * u) (y + 600000 * v) (z + 600000 * w).
Proof.
  refine (solver_uses_axes_a_a_b Stub.Ellipsoid_default Stub.aer2enu_e Stub.enu2uvw_e
            Stub.geodetic2ecef_e Stub.ecef2geodetic_e WithNumpy (Scalar (fin 0)) (Scalar (fin 0))
            (Scalar (fin 600000)) (Scalar (fin 0)) (Scalar (fin 0)) None true 1 _ _ _ 0 600000
            stub_valid eq_refl altitude_600km stub_nadir_call (le_n 1) _).
  cbn [squeezed Nat.eqb item]. exact stub_nadir_slant.
Defined.

Lemma nan_altitude_propagates_witness :
  altitude_is_negative (Scalar nan) = Ok false /\
  exists lat lon d,
    Stub.lookAtSpheroid WithNumpy (Array [fin 0; fin 10]) (Scalar (fin 0)) (Scalar nan)
      (Scalar (fin 0)) (Scalar (fin 0)) None true = Ok (lat, lon, d) /\
    forall i, i < 2 -> item nan lat i = nan /\ item nan lon i = nan /\ item nan d i = nan.
Proof.
  apply (nan_altitude_propagates Stub.Ellipsoid_default Stub.aer2enu_e Stub.enu2uvw_e
           Stub.geodetic2ecef_e Stub.ecef2geodetic_e WithNumpy (Array [fin 0; fin 10])
           (Scalar (fin 0)) (Scalar (fin 0)) (Scalar (fin 0)) None true 2).
  - apply stub_nan_altitude.
  - apply stub_nan_point.
  - apply stub_nan_point.
  - reflexivity.
  - discriminate.
Defined.

Lemma numpy_range_is_nan_or_not_negative_witness :
  item nan (squeezed 1 (fun _ => snd (look_e Stub.Ellipsoid_default Stub.aer2enu_e
              Stub.enu2uvw_e Stub.geodetic2ecef_e Stub.ecef2geodetic_e
              (fin 0) (fin 0) (fin 600000) (fin 0) (fin 0) None true))) 0 = nan \/
  Float.nonneg
    (item nan (squeezed 1 (fun _ => snd (look_e Stub.Ellipsoid_default Stub.aer2enu_e
                 Stub.enu2uvw_e Stub.geodetic2ecef_e Stub.ecef2geodetic_e
                 (fin 0) (fin 0) (fin 600000) (fin 0) (fin 0) None true))) 0).
Proof.
  exact (numpy_range_is_nan_or_not_negative Stub.Ellipsoid_default Stub.aer2enu_e Stub.enu2uvw_e
           Stub.geodetic2ecef_e Stub.ecef2geodetic_e (Scalar (fin 0)) (Scalar (fin 0))
           (Scalar (fin 600000)) (Scalar (fin 0)) (Scalar (fin 0)) None true 1 _ _ _ 0
           eq_refl altitude_600km stub_nadir_call (le_n 1)).
Defined.

(** C2, at the failing input: without numpy, looking straight up from
    600 km above the equator, the call returns the slant range
    -13356274 m. *)
Lemma math_range_can_be_negative_witness :
  exists lat lon,
    Stub.lookAtSpheroid MathOnly (Scalar (fin 0)) (Scalar (fin 0)) (Scalar (fin 600000))
      (Scalar (fin 0)) (Scalar (fin 180)) None true =
    Ok (Scalar lat, Scalar lon, Scalar (fin (-13356274))).
Proof.
  apply (math_range_can_be_negative Stub.Ellipsoid_default Stub.aer2enu_e Stub.enu2uvw_e
           Stub.geodetic2ecef_e Stub.ecef2geodetic_e (fin 0) (fin 0) (fin 600000) (fin 0)
           (fin 180) None true (-13356274)).
  - apply ltb_false. lra.
  - exact stub_zenith_radical.
  - exact stub_zenith_magnitude.
  - exact stub_zenith_range.
Defined.

Section LineOfSight.
Local Open Scope R_scope.

(** ** The line of sight against the ellipsoid *)

(** The ellipsoid equation along the line, with the square completed:
    the radical of lines 90-103 is its discriminant. *)
Lemma ray_completed_square (a b c u v w x y z t : R) :
  a <> 0 -> b <> 0 -> c <> 0 ->
  magnitude a b c u v w * (a * b * c) ^ 2 *
    (((x + t * u) / a) ^ 2 + ((y + t * v) / b) ^ 2 + ((z + t * w) / c) ^ 2 - 1) =
  (magnitude a b c u v w * t - value a b c u v w x y z) ^ 2
  - (a * b * c) ^ 2 * radical a b c u v w x y z.
Proof.
  intros Ha Hb Hc. unfold radical, value, magnitude.
  cbn [padd psub pmul pneg plit R_Arith]. field. auto.
Qed.

Lemma outside_of_square (a b c u v w x y z t : R) :
  0 < a -> 0 < b -> 0 < c ->
  (a * b * c) ^ 2 * radical a b c u v w x y z <
  (magnitude a b c u v w * t - value a b c u v w x y z) ^ 2 ->
  outside_ellipsoid a b c (x + t * u) (y + t * v) (z + t * w).
Proof.
  intros Ha Hb Hc Hlt. unfold outside_ellipsoid.
  pose proof (ray_completed_square a b c u v w x y z t
                ltac:(lra) ltac:(lra) ltac:(lra)) as E.
  pose proof (magnitude_nonneg a b c u v w) as Hm.
  assert (Habc : 0 < (a * b * c) ^ 2) by (apply pow2_pos; repeat apply Rmult_integral_contrapositive_currified; lra).
  set (F := ((x + t * u) / a) ^ 2 + ((y + t * v) / b) ^ 2 + ((z + t * w) / c) ^ 2 - 1) in *.
  assert (HF : 0 < magnitude a b c u v w * (a * b * c) ^ 2 * F) by lra.
  assert (0 < F); [|unfold F in *; lra].
  destruct (Rle_or_lt F 0) as [Hle|]; [|assumption].
  assert (magnitude a b c u v w * (a * b * c) ^ 2 * F <= 0); [|lra].
  assert (0 <= magnitude a b c u v w * (a * b * c) ^ 2) by (apply Rmult_le_pos; lra).
  nra.
Qed.


Lemma root_square (a b c rad : R) :
  0 <= rad -> (a * b * c * R_sqrt.sqrt rad) ^ 2 = (a * b * c) ^ 2 * rad.
Proof.
  intros Hr. replace ((a * b * c * R_sqrt.sqrt rad) ^ 2)
    with ((a * b * c) ^ 2 * (R_sqrt.sqrt rad * R_sqrt.sqrt rad)) by ring.
  now rewrite sqrt_sqrt.
Qed.

(** Before the near root the line is outside the ellipsoid. *)
Lemma before_near_root (a b c u v w x y z t : R) :
  0 < a -> 0 < b -> 0 < c ->
  0 <= radical a b c u v w x y z -> 0 < magnitude a b c u v w ->
  t < near_root R_sqrt.sqrt a b c (value a b c u v w x y z) (radical a b c u v w x y z)
        (magnitude a b c u v w) ->
  outside_ellipsoid a b c (x + t * u) (y + t * v) (z + t * w).
Proof.
  intros Ha Hb Hc Hr Hm Ht. apply outside_of_square; try assumption.
  rewrite <- (root_square a b c _ Hr).
  set (s := a * b * c * R_sqrt.sqrt (radical a b c u v w x y z)) in *.
  assert (Hs : 0 <= s).
  { unfold s. apply Rmult_le_pos; [|apply sqrt_pos].
    apply Rmult_le_pos; [apply Rmult_le_pos|]; lra. }
  unfold near_root in Ht. cbn [psub pmul pdiv R_Arith] in Ht. fold s in Ht.
  set (val := value a b c u v w x y z) in *. set (mag := magnitude a b c u v w) in *.
  assert (Hlt : mag * t < val - s).
  { apply (Rmult_lt_compat_l mag) in Ht; [|assumption].
    replace (mag * ((val - s) / mag)) with (val - s) in Ht by (field; lra). exact Ht. }
  nra.
Qed.




End LineOfSight.

(** ** What the returned range means on the line of sight *)

Lemma value_some_nan a b c u v w x y z :
  u = nan \/ v = nan \/ w = nan \/ x = nan \/ y = nan \/ z = nan ->
  value a b c u v w x y z = nan.
Proof.
  intros H. unfold value. cbn [psub pmul pneg plit float_Arith].
  destruct a, b, c, u, v, w, x, y, z; try reflexivity;
    destruct H as [H|[H|[H|[H|[H|H]]]]]; discriminate.
Qed.

Lemma altitude_raises_ValueError h0 e : altitude_is_negative h0 = Raise e -> e = ValueError.
Proof.
  unfold altitude_is_negative, lt. destruct h0 as [h|hs]; cbn [lift2 bind]; [discriminate|].
  destruct hs as [|h1 [|h2 hs]]; cbn; intros H; try discriminate. now injection H.
Qed.

Section Geometry.

Variable D : Ellipsoid.
Variable aer : bool -> pyfloat -> pyfloat -> pyfloat -> triple.
Variable enu : bool -> pyfloat -> pyfloat -> pyfloat -> pyfloat -> pyfloat -> triple.
Variable g2e : bool -> pyfloat -> pyfloat -> pyfloat -> triple.
Variable e2g : bool -> pyfloat -> pyfloat -> pyfloat -> triple.

(** The slant range of one element, by runtime. *)
Lemma look_item_slant rt lat0 lon0 h0 az tilt ell deg la lo dd :
  look_item D aer enu g2e e2g rt lat0 lon0 h0 az tilt ell deg = Ok (la, lo, dd) ->
  dd = match rt with
       | WithNumpy => masked (radical_e D aer enu g2e lat0 lon0 h0 az tilt ell deg)
                        (near_root_e D aer enu g2e lat0 lon0 h0 az tilt ell deg)
       | MathOnly =>
           if Float.ltb (radical_e D aer enu g2e lat0 lon0 h0 az tilt ell deg) (fin 0)
           then nan else near_root_e D aer enu g2e lat0 lon0 h0 az tilt ell deg
       end.
Proof.
  destruct rt; cbn [look_item].
  - unfold look_e. intros H. injection H as H.
    pose proof (finish_e_range aer enu g2e e2g lat0 lon0 h0 az tilt deg
                  (masked (radical_e D aer enu g2e lat0 lon0 h0 az tilt ell deg)
                     (near_root_e D aer enu g2e lat0 lon0 h0 az tilt ell deg))) as Hd.
    rewrite H in Hd. cbn [snd] in Hd. now subst dd.
  - unfold look_math.
    destruct (Float.ltb (radical_e D aer enu g2e lat0 lon0 h0 az tilt ell deg) (fin 0)).
    + intros H. injection H as H.
      pose proof (finish_e_range aer enu g2e e2g lat0 lon0 h0 az tilt deg nan) as Hd.
      rewrite H in Hd. now cbn in Hd.
    + destruct (Float.is_zero _); [discriminate|]. intros H. injection H as H.
      pose proof (finish_e_range aer enu g2e e2g lat0 lon0 h0 az tilt deg
                    (near_root_e D aer enu g2e lat0 lon0 h0 az tilt ell deg)) as Hd.
      rewrite H in Hd. now cbn [snd] in Hd.
Qed.



(** X3.  The returned range is the first hit.  A slant range that is a
    number [r] puts the point at distance [r] on the ellipsoid of
    semi-axes [(a, a, b)], and every point of the line of sight before
    it is outside that ellipsoid. *)
Theorem returned_range_is_first_hit rt lat0 lon0 h0 az tilt ell deg n lat lon d i (r : R) :
  valid_ellipsoid (ellipsoid_of D ell) ->
  admissible rt [lat0; lon0; h0; az; tilt] n ->
  altitude_is_negative h0 = Ok false ->
  lookAtSpheroid D (elementwise3 aer) (elementwise5 enu) (elementwise3 g2e) (elementwise3 e2g)
    rt lat0 lon0 h0 az tilt ell deg = Ok (lat, lon, d) ->
  i < n ->
  item nan d i = fin r ->
  exists a b u v w x y z : R,
    semimajor_axis (ellipsoid_of D ell) = fin a /\
    semiminor_axis (ellipsoid_of D ell) = fin b /\
    direction_e aer enu (item nan lat0 i) (item nan lon0 i) (item nan az i) (item nan tilt i) deg
      = (fin u, fin v, fin w) /\
    observer_e g2e (item nan lat0 i) (item nan lon0 i) (item nan h0 i) deg
      = (fin x, fin y, fin z) /\
    on_ellipsoid a a b (x + r * u) (y + r * v) (z + r * w) /\
    forall t : R, (t < r)%R -> outside_ellipsoid a a b (x + t * u) (y + t * v) (z + t * w).
Proof.
  intros Hell Hadm HG Hlook Hi Hd.
  pose proof (lookAtSpheroid_items D aer enu g2e e2g _ _ _ _ _ _ _ _ _ _ _ _ _ Hadm HG Hlook Hi)
    as Hitem.
  apply look_item_range in Hitem. destruct Hitem as [E|(E & _ & _)];
    [rewrite E in Hd; discriminate|].
  rewrite Hd in E. symmetry in E.
  destruct (near_root_e_fin D aer enu g2e _ _ _ _ _ _ _ _ E)
    as (a & c & u & v & w & x & y & z & Ea & Ec & Edir & Eobs & Hr & Hm & _ & Er & _).
  exists a, c, u, v, w, x, y, z. repeat (split; [assumption|]).
  unfold valid_ellipsoid in Hell. rewrite Ea, Ec in Hell.
  pose proof (magnitude_nonneg a a c u v w) as Hm0.
  split.
  - rewrite Er. apply near_root_on_ellipsoid; try assumption; lra.
  - intros t Ht. rewrite Er in Ht. apply before_near_root; try assumption; lra.
Qed.


End Geometry.

(** ** Exceptions, and the two runtimes side by side *)

Section AltitudeTest.

Variable Ellipsoid_default : Ellipsoid.
Variable aer2enu : pyval -> pyval -> pyval -> bool -> py3.
Variable enu2uvw : pyval -> pyval -> pyval -> pyval -> pyval -> bool -> py3.
Variable geodetic2ecef : pyval -> pyval -> pyval -> bool -> py3.
Variable ecef2geodetic : pyval -> pyval -> pyval -> bool -> py3.

(** X5.  With numpy, an altitude given as a one-element array is tested
    like a scalar: when its element is below zero the call fails with
    [ValueError], whatever the other arguments and the collaborators
    are. *)
Theorem one_element_altitude_raises lat0 lon0 az tilt ell deg (h : R) :
  (h < 0)%R ->
  lookAtSpheroid Ellipsoid_default aer2enu enu2uvw geodetic2ecef ecef2geodetic
    WithNumpy lat0 lon0 (Array [fin h]) az tilt ell deg = Raise ValueError.
Proof.
  intros Hh. unfold lookAtSpheroid, altitude_is_negative, lt. cbn [lift2 map bind truth].
  apply ltb_true in Hh. rewrite Hh. reflexivity.
Qed.

End AltitudeTest.

Section Exceptions.

Variable D : Ellipsoid.
Variable aer : bool -> pyfloat -> pyfloat -> pyfloat -> triple.
Variable enu : bool -> pyfloat -> pyfloat -> pyfloat -> pyfloat -> pyfloat -> triple.
Variable g2e : bool -> pyfloat -> pyfloat -> pyfloat -> triple.
Variable e2g : bool -> pyfloat -> pyfloat -> pyfloat -> triple.

(** X4.  With numpy and collaborators that work element by element, a
    call on inputs that broadcast together returns when the test of
    line 66 is passed, and otherwise raises [ValueError]; it raises
    nothing else. *)
Theorem numpy_raises_only_for_altitude lat0 lon0 h0 az tilt ell deg n :
  broadcast_length [lat0; lon0; h0; az; tilt] = Some n ->
  (altitude_is_negative h0 = Ok false /\
   exists lat lon d,
     lookAtSpheroid D (elementwise3 aer) (elementwise5 enu) (elementwise3 g2e)
       (elementwise3 e2g) WithNumpy lat0 lon0 h0 az tilt ell deg = Ok (lat, lon, d)) \/
  (altitude_is_negative h0 <> Ok false /\
   lookAtSpheroid D (elementwise3 aer) (elementwise5 enu) (elementwise3 g2e)
     (elementwise3 e2g) WithNumpy lat0 lon0 h0 az tilt ell deg = Raise ValueError).
Proof.
  intros HB. destruct (altitude_is_negative h0) as [[|]|e] eqn:HG.
  - right. split; [discriminate|]. unfold lookAtSpheroid. now rewrite HG.
  - left. split; [reflexivity|]. do 3 eexists.
    exact (lookAtSpheroid_numpy D aer enu g2e e2g _ _ _ _ _ _ _ n HB HG).
  - right. split; [discriminate|]. unfold lookAtSpheroid. rewrite HG.
    apply altitude_raises_ValueError in HG. now subst e.
Qed.



(** X8.  Not-a-number spreads.  When [ecef2geodetic] gives not-a-number
    angles for a not-a-number point, an element whose direction or
    observer position has a not-a-number component comes back as the
    sentinel in all three outputs, and the call raises nothing.
    Without numpy the float division of line 109 must not be by
    zero. *)
Theorem nan_component_propagates rt lat0 lon0 h0 az tilt ell deg n i (u v w x y z : pyfloat) :
  fst (fst (e2g deg nan nan nan)) = nan ->
  snd (fst (e2g deg nan nan nan)) = nan ->
  admissible rt [lat0; lon0; h0; az; tilt] n ->
  altitude_is_negative h0 = Ok false ->
  i < n ->
  direction_e aer enu (item nan lat0 i) (item nan lon0 i) (item nan az i) (item nan tilt i) deg
    = (u, v, w) ->
  observer_e g2e (item nan lat0 i) (item nan lon0 i) (item nan h0 i) deg = (x, y, z) ->
  u = nan \/ v = nan \/ w = nan \/ x = nan \/ y = nan \/ z = nan ->
  (rt = MathOnly ->
   Float.is_zero (magnitude_e D aer enu (item nan lat0 i) (item nan lon0 i) (item nan az i)
                    (item nan tilt i) ell deg) = false) ->
  exists lat lon d,
    lookAtSpheroid D (elementwise3 aer) (elementwise5 enu) (elementwise3 g2e) (elementwise3 e2g)
      rt lat0 lon0 h0 az tilt ell deg = Ok (lat, lon, d) /\
    item nan lat i = nan /\ item nan lon i = nan /\ item nan d i = nan.
Proof.
  intros H1 H2 Hadm HG Hi Ed Eo Hnan Hmag.
  assert (Hnear : near_root_e D aer enu g2e (item nan lat0 i) (item nan lon0 i) (item nan h0 i)
                    (item nan az i) (item nan tilt i) ell deg = nan).
  { unfold near_root_e, value_e, axes. rewrite Ed, Eo.
    now rewrite (value_some_nan _ _ _ _ _ _ _ _ _ Hnan). }
  destruct rt.
  - rewrite (lookAtSpheroid_numpy D aer enu g2e e2g _ _ _ _ _ _ _ n Hadm HG).
    do 3 eexists. split; [reflexivity|]. rewrite !item_squeezed by exact Hi.
    unfold look_e. rewrite Hnear, masked_nan, finish_e_nan by assumption. auto.
  - destruct (admissible_math _ _ _ _ _ _ Hadm) as (a & b & c & d & e & -> & -> & -> & -> & -> & ->).
    rewrite lookAtSpheroid_math. rewrite altitude_scalar in HG. injection HG as ->.
    replace i with 0 in * by lia. cbn [item] in *. unfold look_math.
    rewrite (Hmag eq_refl), Hnear.
    destruct (Float.ltb _ _); rewrite finish_e_nan by assumption;
      (do 3 eexists; split; [reflexivity|]; auto).
Qed.

End Exceptions.

(** ** The further theorems at concrete inputs *)



Lemma stub_nadir_direction :
  direction_e Stub.aer2enu_e Stub.enu2uvw_e (fin 0) (fin 0) (fin 0) (fin 0) true =
  (fin (-1), fin 0, fin 0).
Proof. rewrite stub_direction, sin_nadir, cos_nadir. reflexivity. Qed.




Lemma returned_range_is_first_hit_witness :
  exists a b u v w x y z : R,
    semimajor_axis (ellipsoid_of Stub.Ellipsoid_default None) = fin a /\
    semiminor_axis (ellipsoid_of Stub.Ellipsoid_default None) = fin b /\
    direction_e Stub.aer2enu_e Stub.enu2uvw_e (fin 0) (fin 0) (fin 0) (fin 0) true
      = (fin u, fin v, fin w) /\
    observer_e Stub.geodetic2ecef_e (fin 0) (fin 0) (fin 600000) true = (fin x, fin y, fin z) /\
    on_ellipsoid a a b (x + 600000 * u) (y + 600000 * v) (z + 600000 * w) /\
    forall t : R, (t < 600000)%R ->
      outside_ellipsoid a a b (x + t * u) (y + t * v) (z + t * w).
Proof.
  refine (returned_range_is_first_hit Stub.Ellipsoid_default Stub.aer2enu_e Stub.enu2uvw_e
            Stub.geodetic2ecef_e Stub.ecef2geodetic_e WithNumpy (Scalar (fin 0)) (Scalar (fin 0))
            (Scalar (fin 600000)) (Scalar (fin 0)) (Scalar (fin 0)) None true 1 _ _ _ 0 600000
            stub_valid eq_refl altitude_600km stub_nadir_call (le_n 1) _).
  cbn [squeezed Nat.eqb item]. exact stub_nadir_slant.
Defined.

Lemma numpy_raises_only_for_altitude_witness :
  (altitude_is_negative (Array [fin (-5)]) = Ok false /\
   exists lat lon d,
     Stub.lookAtSpheroid WithNumpy (Array [fin 0; fin 1]) (Scalar (fin 0)) (Array [fin (-5)])
       (Scalar (fin 0)) (Scalar (fin 0)) None true = Ok (lat, lon, d)) \/
  (altitude_is_negative (Array [fin (-5)]) <> Ok false /\
   Stub.lookAtSpheroid WithNumpy (Array [fin 0; fin 1]) (Scalar (fin 0)) (Array [fin (-5)])
     (Scalar (fin 0)) (Scalar (fin 0)) None true = Raise ValueError).
Proof.
  apply (numpy_raises_only_for_altitude Stub.Ellipsoid_default Stub.aer2enu_e Stub.enu2uvw_e
           Stub.geodetic2ecef_e Stub.ecef2geodetic_e (Array [fin 0; fin 1]) (Scalar (fin 0))
           (Array [fin (-5)]) (Scalar (fin 0)) (Scalar (fin 0)) None true 2).
  reflexivity.
Defined.

Lemma one_element_altitude_raises_witness :
  lookAtSpheroid Stub.Ellipsoid_default failing3 failing5 failing3 failing3
    WithNumpy (Scalar (fin 0)) (Scalar (fin 0)) (Array [fin (-1)]) (Scalar (fin 0))
    (Scalar (fin 0)) None true = Raise ValueError.
Proof. apply one_element_altitude_raises. lra. Defined.


Lemma nan_component_propagates_witness :
  exists lat lon d,
    Stub.lookAtSpheroid WithNumpy (Scalar (fin 0)) (Scalar (fin 0)) (Scalar (fin 600000))
      (Scalar (fin 0)) (Array [fin 0; nan]) None true = Ok (lat, lon, d) /\
    item nan lat 1 = nan /\ item nan lon 1 = nan /\ item nan d 1 = nan.
Proof.
  refine (nan_component_propagates Stub.Ellipsoid_default Stub.aer2enu_e Stub.enu2uvw_e
            Stub.geodetic2ecef_e Stub.ecef2geodetic_e WithNumpy (Scalar (fin 0)) (Scalar (fin 0))
            (Scalar (fin 600000)) (Scalar (fin 0)) (Array [fin 0; nan]) None true 2 1
            nan nan nan (fin (6378137 + 600000)) (fin 0) (fin 0)
            (proj1 (stub_nan_point true)) (proj2 (stub_nan_point true)) eq_refl altitude_600km
            (le_n 2) _ (stub_observer 600000) (or_introl eq_refl) _).
  - reflexivity.
  - discriminate.
Defined.


(** ** The returned angles *)

Section Returned.

Variable D : Ellipsoid.
Variable aer : bool -> pyfloat -> pyfloat -> pyfloat -> triple.
Variable enu : bool -> pyfloat -> pyfloat -> pyfloat -> pyfloat -> pyfloat -> triple.
Variable g2e : bool -> pyfloat -> pyfloat -> pyfloat -> triple.
Variable e2g : bool -> pyfloat -> pyfloat -> pyfloat -> triple.

Lemma look_item_finish rt lat0 lon0 h0 az tilt ell deg la lo dd :
  look_item D aer enu g2e e2g rt lat0 lon0 h0 az tilt ell deg = Ok (la, lo, dd) ->
  (la, lo, dd) = finish_e aer enu g2e e2g lat0 lon0 h0 az tilt deg dd.
Proof.
  intros H. pose proof (look_item_slant D aer enu g2e e2g _ _ _ _ _ _ _ _ _ _ _ H) as Hd.
  destruct rt; cbn [look_item] in H.
  - unfold look_e in H. injection H as H. rewrite <- Hd in H. now symmetry.
  - unfold look_math in H.
    destruct (Float.ltb (radical_e D aer enu g2e lat0 lon0 h0 az tilt ell deg) (fin 0)).
    + injection H as H. subst dd. now symmetry.
    + destruct (Float.is_zero _); [discriminate|]. injection H as H. subst dd. now symmetry.
Qed.

(** X10.  The returned latitude and longitude are those of the returned
    range: element [i] of the two is what [ecef2geodetic] gives for the
    point at distance [d_i] from the observer along the line of sight
    (line 121), on both runtimes. *)
Theorem returned_angles_are_of_the_returned_point
    rt lat0 lon0 h0 az tilt ell deg n lat lon d i (u v w x y z : pyfloat) :
  admissible rt [lat0; lon0; h0; az; tilt] n ->
  altitude_is_negative h0 = Ok false ->
  lookAtSpheroid D (elementwise3 aer) (elementwise5 enu) (elementwise3 g2e) (elementwise3 e2g)
    rt lat0 lon0 h0 az tilt ell deg = Ok (lat, lon, d) ->
  i < n ->
  direction_e aer enu (item nan lat0 i) (item nan lon0 i) (item nan az i) (item nan tilt i) deg
    = (u, v, w) ->
  observer_e g2e (item nan lat0 i) (item nan lon0 i) (item nan h0 i) deg = (x, y, z) ->
  item nan lat i =
    fst (fst (e2g deg (along x (item nan d i) u) (along y (item nan d i) v)
                (along z (item nan d i) w))) /\
  item nan lon i =
    snd (fst (e2g deg (along x (item nan d i) u) (along y (item nan d i) v)
                (along z (item nan d i) w))).
Proof.
  intros Hadm HG Hlook Hi Ed Eo.
  pose proof (lookAtSpheroid_items D aer enu g2e e2g _ _ _ _ _ _ _ _ _ _ _ _ _ Hadm HG Hlook Hi)
    as Hitem.
  apply look_item_finish in Hitem. unfold finish_e in Hitem. rewrite Ed, Eo in Hitem.
  destruct (e2g deg _ _ _) as [[la lo] al]. injection Hitem as -> ->. auto.
Qed.

(** X11.  Without numpy a call on floats that returns, returns three
    floats: the slant range is the sentinel when the radical is
    negative and the near root of line 109 otherwise, unmasked. *)
Theorem math_returns_floats lat0 lon0 h0 az tilt ell deg lat lon d :
  lookAtSpheroid D (elementwise3 aer) (elementwise5 enu) (elementwise3 g2e) (elementwise3 e2g)
    MathOnly (Scalar lat0) (Scalar lon0) (Scalar h0) (Scalar az) (Scalar tilt) ell deg
    = Ok (lat, lon, d) ->
  exists la lo dd,
    lat = Scalar la /\ lon = Scalar lo /\ d = Scalar dd /\
    dd = (if Float.ltb (radical_e D aer enu g2e lat0 lon0 h0 az tilt ell deg) (fin 0)
          then nan else near_root_e D aer enu g2e lat0 lon0 h0 az tilt ell deg).
Proof.
  rewrite lookAtSpheroid_math. destruct (Float.ltb h0 (fin 0)); [discriminate|].
  destruct (look_math D aer enu g2e e2g lat0 lon0 h0 az tilt ell deg) as [[[la lo] dd]|e] eqn:E;
    cbn [scalars]; [|discriminate].
  intros H. injection H as <- <- <-. exists la, lo, dd. do 3 (split; [reflexivity|]).
  exact (look_item_slant D aer enu g2e e2g MathOnly _ _ _ _ _ _ _ _ _ _ E).
Qed.

End Returned.

Lemma returned_angles_are_of_the_returned_point_witness :
  fst (fst (look_e Stub.Ellipsoid_default Stub.aer2enu_e Stub.enu2uvw_e Stub.geodetic2ecef_e
              Stub.ecef2geodetic_e (fin 0) (fin 0) (fin 600000) (fin 0) (fin 0) None true)) =
    fst (fst (Stub.ecef2geodetic_e true
                (along (fin (6378137 + 600000)) (fin 600000) (fin (-1)))
                (along (fin 0) (fin 600000) (fin 0))
                (along (fin 0) (fin 600000) (fin 0)))) /\
  snd (fst (look_e Stub.Ellipsoid_default Stub.aer2enu_e Stub.enu2uvw_e Stub.geodetic2ecef_e
              Stub.ecef2geodetic_e (fin 0) (fin 0) (fin 600000) (fin 0) (fin 0) None true)) =
    snd (fst (Stub.ecef2geodetic_e true
                (along (fin (6378137 + 600000)) (fin 600000) (fin (-1)))
                (along (fin 0) (fin 600000) (fin 0))
                (along (fin 0) (fin 600000) (fin 0)))).
Proof.
  pose proof (returned_angles_are_of_the_returned_point Stub.Ellipsoid_default Stub.aer2enu_e
                Stub.enu2uvw_e Stub.geodetic2ecef_e Stub.ecef2geodetic_e WithNumpy
                (Scalar (fin 0)) (Scalar (fin 0)) (Scalar (fin 600000)) (Scalar (fin 0))
                (Scalar (fin 0)) None true 1 _ _ _ 0 _ _ _ _ _ _
                eq_refl altitude_600km stub_nadir_call (le_n 1) stub_nadir_direction
                (stub_observer 600000)) as H.
  cbn [squeezed Nat.eqb item] in H. rewrite stub_nadir_slant in H. exact H.
Defined.

Lemma math_returns_floats_witness :
  exists la lo dd,
    Scalar (fin (-13356274)) = Scalar dd /\
    dd = (if Float.ltb (radical_e Stub.Ellipsoid_default Stub.aer2enu_e Stub.enu2uvw_e
                          Stub.geodetic2ecef_e (fin 0) (fin 0) (fin 600000) (fin 0) (fin 180)
                          None true) (fin 0)
          then nan
          else near_root_e Stub.Ellipsoid_default Stub.aer2enu_e Stub.enu2uvw_e
                 Stub.geodetic2ecef_e (fin 0) (fin 0) (fin 600000) (fin 0) (fin 180) None true) /\
    Stub.lookAtSpheroid MathOnly (Scalar (fin 0)) (Scalar (fin 0)) (Scalar (fin 600000))
      (Scalar (fin 0)) (Scalar (fin 180)) None true =
    Ok (Scalar la, Scalar lo, Scalar (fin (-13356274))).
Proof.
  assert (Hcall : exists la lo,
    Stub.lookAtSpheroid MathOnly (Scalar (fin 0)) (Scalar (fin 0)) (Scalar (fin 600000))
      (Scalar (fin 0)) (Scalar (fin 180)) None true =
    Ok (Scalar la, Scalar lo, Scalar (fin (-13356274)))).
  { unfold Stub.lookAtSpheroid, Stub.aer2enu, Stub.enu2uvw, Stub.geodetic2ecef,
      Stub.ecef2geodetic.
    rewrite lookAtSpheroid_math. replace (Float.ltb (fin 600000) (fin 0)) with false
      by (symmetry; apply ltb_false; lra).
    unfold look_math. rewrite stub_zenith_radical, stub_zenith_magnitude, stub_zenith_range.
    pose proof (finish_e_range Stub.aer2enu_e Stub.enu2uvw_e Stub.geodetic2ecef_e
                  Stub.ecef2geodetic_e (fin 0) (fin 0) (fin 600000) (fin 0) (fin 180) true
                  (fin (-13356274))) as Hs.
    destruct (finish_e _ _ _ _ _ _ _ _ _ _ _) as [[la lo] dd]. cbn [snd] in Hs. subst dd.
    exists la, lo. reflexivity. }
  destruct Hcall as (la & lo & Hcall).
  destruct (math_returns_floats Stub.Ellipsoid_default Stub.aer2enu_e Stub.enu2uvw_e
              Stub.geodetic2ecef_e Stub.ecef2geodetic_e (fin 0) (fin 0) (fin 600000) (fin 0)
              (fin 180) None true (Scalar la) (Scalar lo) (Scalar (fin (-13356274))) Hcall)
    as (la' & lo' & dd & E1 & E2 & E3 & Hd).
  exists la, lo, dd. auto.
Defined.
